(** * LANProbe: the paced sender and the throughput receiver of [lanprobe.py]

    A shallow embedding of [run_server], [server_tcp_session],
    [server_udp_session], [client_tcp] and [client_udp].

    Conventions of the embedding.
    - Python [float] values (clock readings, rates, durations) are exact
      rationals [Q] in the sessions and the clients; equalities between
      computed times and rates are therefore stated with [==].  Where the
      rounding of binary64 decides a property, the pacing arithmetic of the
      sender is embedded a second time on IEEE 754 binary64 ([interval64],
      [send_loop64]).
    - [/] is Python's true division: it raises [ZeroDivisionError] on a zero
      divisor ([py_truediv]).
    - Every loop is driven by a script: one record per iteration holding what
      the environment answers in that iteration (the clock reading, the outcome
      of the blocking socket call, whether somebody set [stop_event] in the
      meantime).  A script that runs out while the loop is still going gives
      [Blocked]: the call has not returned yet.
    - What the program does to the outside is recorded in [log], latest effect
      first: lines printed, sleeps, packets handed to a socket, sockets
      closed.  A printed line is recorded by its kind and the values it shows,
      not by its rendered text. *)

From Stdlib Require Import QArith ZArith List Lia Lqa Bool String SpecFloat.
Import ListNotations.
Open Scope Q_scope.

(** ** Exceptions and fallible results *)

Inductive exn : Type :=
| BrokenPipeError
| ConnectionResetError
| OtherOSError
| SocketTimeout            (* socket.timeout, a subclass of OSError *)
| KeyboardInterrupt
| ZeroDivisionError
| OverflowError            (* an int too large for a float, a sleep too long *)
| ValueError.              (* time.sleep of a negative number or of nan *)

(** [except OSError] and [except (BrokenPipeError, ConnectionResetError, OSError)]. *)
Definition is_OSError (e : exn) : bool :=
  match e with
  | BrokenPipeError | ConnectionResetError | OtherOSError | SocketTimeout => true
  | KeyboardInterrupt | ZeroDivisionError | OverflowError | ValueError => false
  end.

(** [except socket.timeout]. *)
Definition is_timeout (e : exn) : bool :=
  match e with SocketTimeout => true | _ => false end.

(** [except KeyboardInterrupt]. *)
Definition is_interrupt (e : exn) : bool :=
  match e with KeyboardInterrupt => true | _ => false end.

Inductive res (A : Type) : Type :=
| Ok (a : A)
| Err (e : exn).
Arguments Ok {A} a.
Arguments Err {A} e.

(** How a call ends: it returns, an exception leaves it, or it is still
    running when the script ends.  The carried value is the state reached. *)
Inductive outcome (A : Type) : Type :=
| Returned (a : A)
| Raised (e : exn) (a : A)
| Blocked (a : A).
Arguments Returned {A} a.
Arguments Raised {A} e a.
Arguments Blocked {A} a.

Definition state_of {A : Type} (o : outcome A) : A :=
  match o with Returned a | Raised _ a | Blocked a => a end.

Definition py_truediv (a b : Q) : res Q :=
  if Qeq_bool b 0 then Err ZeroDivisionError else Ok (a / b).

(** ** Command line arguments ([argparse] namespace) *)

Inductive proto : Type := tcp | udp.

Record args : Type := mk_args {
  type : proto;
  speed : Q;             (* Mbit/s *)
  time : Q;              (* seconds *)
  host : string;
  packet : Z;            (* bytes *)
  target : option string;
  port : Z
}.

Definition set_speed (a : args) (s : Q) : args :=
  mk_args (type a) s (time a) (host a) (packet a) (target a) (port a).

(** ** Sockets, printed lines, effects and the world *)

Definition sock := nat.
Definition address : Type := string * Z.

Inductive msg : Type :=
| MsgServerStarted
| MsgUdpBroadcastMode
| MsgUdpUnicastMode (t : string)
| MsgWaitTcp (p : Z)
| MsgClientConnected (peer : address)
| MsgClientDisconnected (peer : address)
| MsgReady
| MsgUdpStart (addr_desc : string) (mbps : Q)
| MsgUdpSendError (e : exn)
| MsgServerStopped
| MsgConnected (h : string) (p : Z)
| MsgConnectLatency (ms : Q)
| MsgClosedAtOnce
| MsgFirstPacketLatency (ms : Q)
| MsgFirstPacketTimeout
| MsgServerClosed
| MsgSample (elapsed speed_mbps total_mb : Q)
| MsgFinal (avg_speed final_time total_mb : Q)
| MsgUdpWaiting (p : Z)
| MsgTrafficFrom (peer : address)
| MsgNoTraffic.

Inductive effect : Type :=
| Printed (m : msg)
| Slept (d : Q)
| SentAll (conn : sock) (len : Z)
| SentTo (s : sock) (dest : address) (len : Z)
| Closed (s : sock).

Record world : Type := mk_world {
  stop_event : bool;
  open_socks : list sock;
  log : list effect
}.

Definition emit (e : effect) (w : world) : world :=
  mk_world (stop_event w) (open_socks w) (e :: log w).

Definition print (m : msg) (w : world) : world := emit (Printed m) w.

Definition sleep (d : Q) (w : world) : world := emit (Slept d) w.

Definition close (s : sock) (w : world) : world :=
  mk_world (stop_event w) (remove Nat.eq_dec s (open_socks w)) (Closed s :: log w).

(** [stop_event.set()]. *)
Definition set_stop (w : world) : world :=
  mk_world true (open_socks w) (log w).

(** [stop_event.is_set()]: [ext] tells whether the flag was set from outside
    since the last look; once set the flag stays set. *)
Definition is_set (ext : bool) (w : world) : bool * world :=
  let b := stop_event w || ext in
  (b, mk_world b (open_socks w) (log w)).

Definition is_open (s : sock) (w : world) : bool :=
  existsb (Nat.eqb s) (open_socks w).

(** ** The paced send loop (lines 167-179 and 199-212) *)

Definition bytes_per_sec (a : args) : Q := speed a * 125000.

(** [interval = packet_size / bytes_per_sec if bytes_per_sec > 0 else 0]. *)
Definition interval_of (a : args) : res Q :=
  if Qlt_le_dec 0 (bytes_per_sec a)
  then py_truediv (inject_Z (packet a)) (bytes_per_sec a)
  else Ok 0.

(** [len(b"0" * packet_size)]: a non-positive count gives the empty string. *)
Definition data_len (a : args) : Z := Z.max 0 (packet a).

(** [max(0, x)]. *)
Definition max0 (x : Q) : Q := if Qlt_le_dec 0 x then x else 0.

Inductive sink : Type :=
| SinkTcp (conn : sock)                      (* conn.sendall(data) *)
| SinkUdp (s : sock) (dest_addr : address).  (* sock.sendto(data, dest_addr) *)

(** One iteration of the send loop as the environment sees it. *)
Record send_tick : Type := mk_send_tick {
  tick_stop : bool;          (* flag set from outside before the loop test *)
  tick_now : Q;              (* time.perf_counter() *)
  tick_send : option exn     (* what the send call raises, if anything *)
}.

Definition send (snk : sink) (len : Z) (r : option exn) (w : world) : res world :=
  match r with
  | Some e => Err e
  | None =>
      Ok (emit (match snk with
                | SinkTcp conn => SentAll conn len
                | SinkUdp s dest => SentTo s dest len
                end) w)
  end.

Fixpoint send_loop (snk : sink) (len : Z) (interval : Q)
    (ticks : list send_tick) (next_send_time : Q) (w : world)
    : outcome (Q * world) :=
  match ticks with
  | [] => Blocked (next_send_time, w)
  | tk :: ticks' =>
      let (stopped, w1) := is_set (tick_stop tk) w in
      if stopped then Returned (next_send_time, w1)
      else
        let now := tick_now tk in
        let w2 := if Qlt_le_dec now next_send_time
                  then sleep (max0 (next_send_time - now)) w1
                  else w1 in
        match send snk len (tick_send tk) w2 with
        | Err e => Raised e (next_send_time, w2)
        | Ok w3 => send_loop snk len interval ticks' (next_send_time + interval) w3
        end
  end.

(** ** [server_tcp_session] *)

Record accept_tick : Type := mk_accept_tick {
  acc_stop : bool;
  acc_res : res (sock * address)    (* listen_sock.accept() *)
}.

(** What one session gets from the environment. *)
Record session_env : Type := mk_session_env {
  accepts : list accept_tick;  (* TCP only *)
  start_clock : Q;             (* the perf_counter() that initialises next_send_time *)
  ticks : list send_tick;
  stop_at_error : bool         (* UDP only: flag set before the handler looks *)
}.

(** [accept] on a socket that was closed raises [OSError]; a connection that
    is accepted is a new open socket. *)
Definition accept (listen_sock : sock) (r : res (sock * address)) (w : world)
    : res (sock * address * world) :=
  if is_open listen_sock w then
    match r with
    | Ok (conn, addr) =>
        Ok (conn, addr, mk_world (stop_event w) (conn :: open_socks w) (log w))
    | Err e => Err e
    end
  else Err OtherOSError.

(** Lines 148-160.  [None] stands for every way to leave with [conn is None]. *)
Fixpoint accept_loop (listen_sock : sock) (accs : list accept_tick) (w : world)
    : outcome (option (sock * address) * world) :=
  match accs with
  | [] => Blocked (None, w)
  | a :: accs' =>
      let (stopped, w1) := is_set (acc_stop a) w in
      if stopped then Returned (None, w1)
      else
        match accept listen_sock (acc_res a) w1 with
        | Ok (conn, addr, w2) =>
            Returned (Some (conn, addr), print (MsgClientConnected addr) w2)
        | Err e =>
            if is_timeout e then accept_loop listen_sock accs' w1
            else if is_OSError e then Returned (None, w1)
            else if is_interrupt e then Returned (None, set_stop w1)
            else Raised e (None, w1)
        end
  end.

Definition server_tcp_session (listen_sock : sock) (a : args)
    (env : session_env) (w : world) : outcome world :=
  let w0 := print (MsgWaitTcp (port a)) w in
  match accept_loop listen_sock (accepts env) w0 with
  | Blocked (_, w1) => Blocked w1
  | Raised e (_, w1) => Raised e w1
  | Returned (None, w1) => Returned w1
  | Returned (Some (conn, addr), w1) =>
      match interval_of a with
      | Err e => Raised e w1
      | Ok interval =>
          let finally_ := fun w' => print MsgReady (close conn w') in
          match send_loop (SinkTcp conn) (data_len a) interval
                          (ticks env) (start_clock env) w1 with
          | Blocked (_, w2) => Blocked w2
          | Returned (_, w2) => Returned (finally_ w2)
          | Raised e (_, w2) =>
              if is_OSError e
              then Returned (finally_ (print (MsgClientDisconnected addr) w2))
              else Raised e (finally_ w2)
          end
      end
  end.

(** ** [server_udp_session] *)

Definition broadcast : string := "255.255.255.255".

(** [if args.target:], false for [None] and for the empty string. *)
Definition truthy (t : option string) : bool :=
  match t with
  | None => false
  | Some EmptyString => false
  | Some _ => true
  end.

Definition dest_addr (a : args) : address :=
  match target a with
  | Some t => if truthy (Some t) then (t, port a) else (broadcast, port a)
  | None => (broadcast, port a)
  end.

Definition addr_desc (a : args) : string :=
  match target a with
  | Some t => if truthy (Some t) then t else "broadcast (255.255.255.255)"
  | None => "broadcast (255.255.255.255)"
  end.

Definition server_udp_session (s : sock) (a : args)
    (env : session_env) (w : world) : outcome world :=
  let w0 := print (MsgUdpStart (addr_desc a) (speed a)) w in
  match interval_of a with
  | Err e => Raised e w0
  | Ok interval =>
      match send_loop (SinkUdp s (dest_addr a)) (data_len a) interval
                      (ticks env) (start_clock env) w0 with
      | Blocked (_, w1) => Blocked w1
      | Returned (_, w1) => Returned w1
      | Raised e (_, w1) =>
          if is_OSError e then
            let (stopped, w2) := is_set (stop_at_error env) w1 in
            Returned (if stopped then w2 else print (MsgUdpSendError e) w2)
          else Raised e w1
      end
  end.

(** ** [run_server] *)

Definition session (listen_sock : sock) (a : args) (env : session_env) (w : world)
    : outcome world :=
  match type a with
  | tcp => server_tcp_session listen_sock a env w
  | udp => server_udp_session listen_sock a env w
  end.

(** Lines 130-134; each round is the flag bit of the loop test and the
    script of the session that follows. *)
Fixpoint server_loop (listen_sock : sock) (a : args)
    (rounds : list (bool * session_env)) (w : world) : outcome world :=
  match rounds with
  | [] => Blocked w
  | (ext, env) :: rounds' =>
      let (stopped, w1) := is_set ext w in
      if stopped then Returned w1
      else
        match session listen_sock a env w1 with
        | Returned w2 => server_loop listen_sock a rounds' w2
        | o => o
        end
  end.

(** The listening socket is created, bound and put to listen by the socket
    library: [listen_sock] is its handle, open in [w]. *)
Definition run_server (listen_sock : sock) (a : args)
    (rounds : list (bool * session_env)) (w : world) : outcome world :=
  let w0 := print MsgServerStarted w in
  let w1 := match type a with
            | tcp => w0
            | udp => match target a with
                     | None => print MsgUdpBroadcastMode w0
                     | Some t => print (MsgUdpUnicastMode t) w0
                     end
            end in
  let finally_ := fun w' => print MsgServerStopped (close listen_sock w') in
  match server_loop listen_sock a rounds w1 with
  | Blocked w2 => Blocked w2
  | Returned w2 => Returned (finally_ w2)
  | Raised e w2 =>
      if is_interrupt e then Returned (finally_ (set_stop w2))
      else Raised e (finally_ w2)
  end.

(** ** The receiver: periodic samples and the final average *)

Definition bind {A B : Type} (r : res A) (k : A -> res B) : res B :=
  match r with
  | Ok a => k a
  | Err e => Err e
  end.

Notation "x <- r ;; k" := (bind r (fun x => k))
  (at level 61, r at next level, right associativity).

(** The receiver's counters. *)
Record meter : Type := mk_meter {
  total_bytes : Z;
  last_report_time : Q;
  last_bytes : Z
}.

(** [total_bytes / (1024*1024)]; the divisor is a non-zero literal. *)
Definition megabytes (n : Z) : Q := inject_Z n / 1048576.

(** Lines 268-278 and 329-339, run after [total_bytes += len(data)];
    [1e6] is a non-zero literal. *)
Definition report (start_time now : Q) (m : meter) (w : world) : res (meter * world) :=
  if Qlt_le_dec (now - last_report_time m) 1 then Ok (m, w)
  else
    let delta_bytes := (total_bytes m - last_bytes m)%Z in
    bps <- py_truediv (inject_Z (delta_bytes * 8)) (now - last_report_time m) ;;
    let speed_mbps := bps / 1000000 in
    let elapsed := now - start_time in
    Ok (mk_meter (total_bytes m) now (total_bytes m),
        print (MsgSample elapsed speed_mbps (megabytes (total_bytes m))) w).

(** One iteration of the receive loop as the environment sees it. *)
Record recv_tick : Type := mk_recv_tick {
  rt_stop : bool;        (* flag set from outside before the loop test *)
  rt_recv : res N;       (* len(data) of what recv/recvfrom returns, or what it raises *)
  rt_at : Q              (* the wall clock, time.time(), when the call comes back *)
}.

(** The loops at lines 259-283 ([p = tcp]) and 324-344 ([p = udp]); they
    differ in the test for a zero-length read, which only the stream has. *)
Fixpoint measure_loop (p : proto) (a : args) (start_time : Q)
    (rticks : list recv_tick) (m : meter) (w : world) : outcome (meter * world) :=
  match rticks with
  | [] => Blocked (m, w)
  | tk :: rticks' =>
      let (stopped, w1) := is_set (rt_stop tk) w in
      if stopped then Returned (m, w1)
      else
        match rt_recv tk with
        | Err e =>
            if is_timeout e then measure_loop p a start_time rticks' m w1
            else Raised e (m, w1)
        | Ok n =>
            if match p with tcp => (n =? 0)%N | udp => false end
            then Returned (m, print MsgServerClosed w1)
            else
              let m1 := mk_meter (total_bytes m + Z.of_N n)
                                 (last_report_time m) (last_bytes m) in
              let now := rt_at tk in
              match report start_time now m1 w1 with
              | Err e => Raised e (m1, w1)
              | Ok (m2, w2) =>
                  if Qlt_le_dec (now - start_time) (time a)
                  then measure_loop p a start_time rticks' m2 w2
                  else Returned (m2, w2)
              end
        end
  end.

(** The body of the [finally] blocks before [sock.close()]
    (lines 285-291 and 350-356). *)
Definition finalize (start_time final_clock : Q) (total : Z) (w : world) : res world :=
  let final_time := final_clock - start_time in
  if Qlt_le_dec 0 final_time then
    bps <- py_truediv (inject_Z (total * 8)) final_time ;;
    let avg_speed := bps / 1000000 in
    Ok (print (MsgFinal avg_speed final_time (megabytes total)) w)
  else Ok w.

(** What one client run gets from the environment. *)
Record client_env : Type := mk_client_env {
  connect_res : option exn;      (* TCP: what sock.connect raises, if anything *)
  pc_start_connect : Q;          (* perf_counter() readings *)
  pc_connected : Q;
  pc_start_first : Q;
  pc_first : Q;
  first_recv : res N;            (* the first recv / recvfrom *)
  first_peer : address;          (* UDP: server_addr *)
  clock_start : Q;               (* the time.time() that sets start_time *)
  rticks : list recv_tick;
  clock_final : Q                (* the time.time() of the finally block *)
}.

(** The [finally] block around a measuring loop that was entered. *)
Definition client_finally (sk : sock) (env : client_env)
    (o : outcome (meter * world)) : outcome world :=
  match o with
  | Blocked (_, w) => Blocked w
  | Returned (m, w) =>
      match finalize (clock_start env) (clock_final env) (total_bytes m) w with
      | Ok w' => Returned (close sk w')
      | Err e' => Raised e' w
      end
  | Raised e (m, w) =>
      match finalize (clock_start env) (clock_final env) (total_bytes m) w with
      | Ok w' => Raised e (close sk w')
      | Err e' => Raised e' w
      end
  end.

(** [sk] is the handle of the socket the function creates, open in [w]. *)
Definition client_tcp (sk : sock) (a : args) (env : client_env) (w : world)
    : outcome world :=
  match connect_res env with
  | Some e => Raised e w
  | None =>
      let connect_latency := (pc_connected env - pc_start_connect env) * 1000 in
      let w1 := print (MsgConnectLatency connect_latency)
                  (print (MsgConnected (host a) (port a)) w) in
      match first_recv env with
      | Err e =>
          if is_timeout e
          then Returned (close sk (print MsgFirstPacketTimeout w1))
          else Raised e w1
      | Ok n =>
          if (n =? 0)%N then Returned (print MsgClosedAtOnce w1)
          else
            let first_packet_latency := (pc_first env - pc_start_first env) * 1000 in
            let w2 := print (MsgFirstPacketLatency first_packet_latency) w1 in
            let start_time := clock_start env in
            let m0 := mk_meter (Z.of_N n) start_time (Z.of_N n) in
            client_finally sk env (measure_loop tcp a start_time (rticks env) m0 w2)
      end
  end.

(** [sk] is the handle of the bound datagram socket, open in [w]. *)
Definition client_udp (sk : sock) (a : args) (env : client_env) (w : world)
    : outcome world :=
  let w0 := print (MsgUdpWaiting (port a)) w in
  match first_recv env with
  | Err e =>
      (* start_time is still None: the finally block only closes *)
      if is_timeout e then Returned (close sk (print MsgNoTraffic w0))
      else Raised e (close sk w0)
  | Ok n =>
      let first_packet_latency := (pc_first env - pc_start_first env) * 1000 in
      let w1 := print (MsgFirstPacketLatency first_packet_latency)
                  (print (MsgTrafficFrom (first_peer env)) w0) in
      let start_time := clock_start env in
      let m0 := mk_meter (Z.of_N n) start_time (Z.of_N n) in
      client_finally sk env (measure_loop udp a start_time (rticks env) m0 w1)
  end.

(** [run_client]. *)
Definition run_client (sk : sock) (a : args) (env : client_env) (w : world)
    : outcome world :=
  match type a with
  | tcp => client_tcp sk a env w
  | udp => client_udp sk a env w
  end.

(** ** Observations on a world *)

Definition is_send (e : effect) : bool :=
  match e with SentAll _ _ | SentTo _ _ _ => true | _ => false end.

Definition is_sleep (e : effect) : bool :=
  match e with Slept _ => true | _ => false end.

(** Number of packets handed to a socket so far. *)
Definition sent_count (w : world) : Z :=
  Z.of_nat (List.length (filter is_send (log w))).

(** Number of [time.sleep] calls so far. *)
Definition slept_count (w : world) : Z :=
  Z.of_nat (List.length (filter is_sleep (log w))).

(** A tick in which nobody asks to stop and the send call succeeds. *)
Definition tick_sends (tk : send_tick) : Prop :=
  tick_stop tk = false /\ tick_send tk = None.

(** Everything but the start banner of a UDP session, which shows [args.speed]. *)
Definition not_banner (e : effect) : bool :=
  match e with Printed (MsgUdpStart _ _) => false | _ => true end.

Definition hush (w : world) : world :=
  mk_world (stop_event w) (open_socks w) (filter not_banner (log w)).

Definition hush_outcome (o : outcome world) : outcome world :=
  match o with
  | Returned w => Returned (hush w)
  | Raised e w => Raised e (hush w)
  | Blocked w => Blocked (hush w)
  end.


(** The [elapsed] values of the periodic samples printed so far, latest first. *)
Fixpoint sample_times (l : list effect) : list Q :=
  match l with
  | [] => []
  | Printed (MsgSample elapsed _ _) :: l' => elapsed :: sample_times l'
  | _ :: l' => sample_times l'
  end.

(** Each sample comes at least one second after the one before it, the first
    one at least one second after the start of the measurement (elapsed 0). *)
Fixpoint spaced (ts : list Q) : Prop :=
  match ts with
  | [] => True
  | t :: rest => 1 <= t - hd 0 rest /\ spaced rest
  end.

(** The receiver's counters agree with the samples printed so far: the
    reference time is that of the latest sample, or the start time. *)
Definition in_step (start_time : Q) (m : meter) (w : world) : Prop :=
  spaced (sample_times (log w)) /\
  last_report_time m - start_time == hd 0 (sample_times (log w)).

(** Throughput figures: periodic samples and the final average. *)
Definition is_stat (e : effect) : bool :=
  match e with
  | Printed (MsgSample _ _ _) | Printed (MsgFinal _ _ _) => true
  | _ => false
  end.

Definition stats (w : world) : list effect := filter is_stat (log w).

(** The line that tells that no traffic came in. *)
Definition no_traffic_msg (p : proto) : msg :=
  match p with tcp => MsgFirstPacketTimeout | udp => MsgNoTraffic end.

(** A receive tick without a stop request. *)
Definition recv_at (t : Q) (r : res N) : recv_tick := mk_recv_tick false r t.

(** A tick in which nobody asks to stop and the receive call times out. *)
Definition tick_idle (tk : recv_tick) : Prop :=
  rt_stop tk = false /\ rt_recv tk = Err SocketTimeout.

(** ** Further observations *)

(** The call is over: it returned or an exception left it. *)
Definition ended {A : Type} (o : outcome A) : bool :=
  match o with Blocked _ => false | _ => true end.

(** The bytes that the receive calls of a script bring. *)
Fixpoint bytes_in (rtks : list recv_tick) : Z :=
  match rtks with
  | [] => 0
  | tk :: rtks' =>
      (match rt_recv tk with Ok n => Z.of_N n | Err _ => 0 end + bytes_in rtks')%Z
  end.

(** The tick is one at which the measuring loop stops: a stop request, an
    exception other than a timeout, a zero-length read on a stream, or data
    that comes when [time a] seconds or more have passed since the start. *)
Definition ends_loop (p : proto) (a : args) (start_time : Q) (tk : recv_tick) : bool :=
  rt_stop tk ||
  match rt_recv tk with
  | Err e => negb (is_timeout e)
  | Ok n =>
      match p with tcp => (n =? 0)%N | udp => false end ||
      (if Qlt_le_dec (rt_at tk - start_time) (time a) then false else true)
  end.

(** A sleep, if [e] is one, is for a positive time. *)
Definition sleep_ok (e : effect) : Prop :=
  match e with Slept d => 0 < d | _ => True end.

(** A throughput figure, if [e] is one, is not negative, and a final average
    is over a positive time. *)
Definition stat_ok (e : effect) : Prop :=
  match e with
  | Printed (MsgSample _ rate _) => 0 <= rate
  | Printed (MsgFinal rate final_time _) => 0 <= rate /\ 0 < final_time
  | _ => True
  end.

(** The counters of a receiver are in order. *)
Definition meter_ok (m : meter) : Prop :=
  (0 <= last_bytes m)%Z /\ (last_bytes m <= total_bytes m)%Z.

(** An accept tick without a stop request. *)
Definition accept_as (r : res (sock * address)) : accept_tick := mk_accept_tick false r.





(** ** The pacing arithmetic in binary64 (lines 167-179 and 199-212) *)

(** A Python [float]: an IEEE 754 binary64 number. *)
Definition binary64 : Type := spec_float.

Definition prec64 : Z := 53.
Definition emax64 : Z := 1024.

(** The float nearest to an integer (ties to even), infinite on overflow. *)
Definition b64_of_Z (z : Z) : binary64 := binary_normalize prec64 emax64 z 0 false.

Definition b64_add : binary64 -> binary64 -> binary64 := SFadd prec64 emax64.
Definition b64_sub : binary64 -> binary64 -> binary64 := SFsub prec64 emax64.
Definition b64_mul : binary64 -> binary64 -> binary64 := SFmul prec64 emax64.
Definition b64_div : binary64 -> binary64 -> binary64 := SFdiv prec64 emax64.
Definition b64_ltb : binary64 -> binary64 -> bool := SFltb.
Definition b64_zero : binary64 := S754_zero false.

Definition b64_finite (x : binary64) : bool :=
  match x with
  | S754_zero _ | S754_finite _ _ _ => true
  | S754_infinity _ | S754_nan => false
  end.

(** The exact value of a finite float. *)
Definition Q_of_b64 (x : binary64) : Q :=
  match x with
  | S754_finite s m e =>
      (if s then - inject_Z (Zpos m) else inject_Z (Zpos m)) * Qpower 2 e
  | _ => 0
  end.

(** An [int] operand of a float operation is converted first;
    [OverflowError] when it is too large for a float. *)
Definition py_float (z : Z) : res binary64 :=
  let x := b64_of_Z z in
  if b64_finite x then Ok x else Err OverflowError.

(** [x / y] on floats. *)
Definition py_truediv64 (x y : binary64) : res binary64 :=
  match y with
  | S754_zero _ => Err ZeroDivisionError
  | _ => Ok (b64_div x y)
  end.

(** Lines 167-169: [bytes_per_sec = args.speed * 125000] and
    [interval = packet_size / bytes_per_sec if bytes_per_sec > 0 else 0]. *)
Definition interval64 (speed : binary64) (packet : Z) : res binary64 :=
  let bytes_per_sec := b64_mul speed (b64_of_Z 125000) in
  if b64_ltb b64_zero bytes_per_sec
  then match py_float packet with
       | Ok x => py_truediv64 x bytes_per_sec
       | Err e => Err e
       end
  else Ok b64_zero.

(** [max(0, x)]: [x] when [x > 0], else 0. *)
Definition max0_64 (x : binary64) : binary64 :=
  if b64_ltb b64_zero x then x else b64_zero.

(** [time.sleep(x)]: nan is refused with [ValueError], a time beyond what the
    platform takes ([sleep_max] seconds in size) with [OverflowError], a
    negative time with [ValueError]. *)
Definition sleep64 (sleep_max : Q) (x : binary64) (w : world) : res world :=
  match x with
  | S754_nan => Err ValueError
  | S754_infinity _ => Err OverflowError
  | _ =>
      let q := Q_of_b64 x in
      if Qlt_le_dec sleep_max q then Err OverflowError
      else if Qlt_le_dec q (- sleep_max) then Err OverflowError
      else if Qlt_le_dec q 0 then Err ValueError
      else Ok (sleep q w)
  end.

Record send_tick64 : Type := mk_send_tick64 {
  tick64_stop : bool;          (* flag set from outside before the loop test *)
  tick64_now : binary64;       (* time.perf_counter() *)
  tick64_send : option exn     (* what the send call raises, if anything *)
}.

(** Lines 174-179 and 206-212 on floats. *)
Fixpoint send_loop64 (sleep_max : Q) (snk : sink) (len : Z) (interval : binary64)
    (ticks : list send_tick64) (next_send_time : binary64) (w : world)
    : outcome (binary64 * world) :=
  match ticks with
  | [] => Blocked (next_send_time, w)
  | tk :: ticks' =>
      let (stopped, w1) := is_set (tick64_stop tk) w in
      if stopped then Returned (next_send_time, w1)
      else
        let now := tick64_now tk in
        match (if b64_ltb now next_send_time
               then sleep64 sleep_max (max0_64 (b64_sub next_send_time now)) w1
               else Ok w1) with
        | Err e => Raised e (next_send_time, w1)
        | Ok w2 =>
            match send snk len (tick64_send tk) w2 with
            | Err e => Raised e (next_send_time, w2)
            | Ok w3 =>
                send_loop64 sleep_max snk len interval ticks'
                            (b64_add next_send_time interval) w3
            end
        end
  end.

(** [d] with [interval] added [n] times, each sum rounded to binary64. *)
Fixpoint add_times (n : nat) (interval d : binary64) : binary64 :=
  match n with
  | O => d
  | S n' => add_times n' interval (b64_add d interval)
  end.

(** ** The sampler as the specification words it (section 4.2)

    [onBytesReceived(n, timestamp)] adds [n] to the running total; when a
    second or more has passed since the window started it emits a sample with
    the rate [(bytesSinceLastSample * 8) / secondsSinceLastSample] and starts
    a new window at the current time and total. *)

Record ThroughputWindow : Type := mk_window {
  windowStartTime : Q;
  bytesAtWindowStart : Z;
  totalBytes : Z
}.

Record Sample : Type := mk_sample {
  elapsedSeconds : Q;
  instantaneousBitsPerSecond : Q;
  totalBytesSoFar : Z
}.

Definition onBytesReceived (session_start : Q) (n : Z) (timestamp : Q)
    (s : ThroughputWindow) : ThroughputWindow * option Sample :=
  let total := (totalBytes s + n)%Z in
  let secondsSinceLastSample := timestamp - windowStartTime s in
  if Qlt_le_dec secondsSinceLastSample 1
  then (mk_window (windowStartTime s) (bytesAtWindowStart s) total, None)
  else
    let bytesSinceLastSample := (total - bytesAtWindowStart s)%Z in
    (mk_window timestamp total total,
     Some (mk_sample (timestamp - session_start)
             (inject_Z (bytesSinceLastSample * 8) / secondsSinceLastSample)
             total)).

(** The sampler over a sequence of receive events [(n, timestamp)]: the last
    window and the samples emitted, first one first. *)
Fixpoint sampler (session_start : Q) (events : list (Z * Q)) (s : ThroughputWindow)
    : ThroughputWindow * list Sample :=
  match events with
  | [] => (s, [])
  | (n, timestamp) :: events' =>
      let (s1, emitted) := onBytesReceived session_start n timestamp s in
      let (s2, later) := sampler session_start events' s1 in
      (s2, match emitted with Some x => x :: later | None => later end)
  end.

(** How the receiver shows a sample: elapsed seconds, Mbit/s, megabytes. *)
Definition shown (x : Sample) : Q * Q * Q :=
  (elapsedSeconds x, instantaneousBitsPerSecond x / 1000000, megabytes (totalBytesSoFar x)).

(** The periodic samples printed so far, latest first. *)
Fixpoint printed_samples (l : list effect) : list (Q * Q * Q) :=
  match l with
  | [] => []
  | Printed (MsgSample elapsed speed_mbps total_mb) :: l' =>
      (elapsed, speed_mbps, total_mb) :: printed_samples l'
  | _ :: l' => printed_samples l'
  end.

(** The receive events that reach the counters of the measuring loop when it
    is entered with the stop flag clear: the data of the ticks before the one
    that ends the loop, and also the data of that one when it is the duration
    that ends the loop. *)
Fixpoint heard (p : proto) (a : args) (start_time : Q) (rtks : list recv_tick)
    : list (Z * Q) :=
  match rtks with
  | [] => []
  | tk :: rtks' =>
      if rt_stop tk then []
      else
        match rt_recv tk with
        | Err e => if is_timeout e then heard p a start_time rtks' else []
        | Ok n =>
            if match p with tcp => (n =? 0)%N | udp => false end then []
            else
              (Z.of_N n, rt_at tk)
              :: (if Qlt_le_dec (rt_at tk - start_time) (time a)
                  then heard p a start_time rtks' else [])
        end
  end.

(** A sleep, if [e] is one, is for at most 9e9 seconds; [time.sleep] takes
    any time up to 2^63 nanoseconds, about 9.2e9 seconds, and raises
    [OverflowError] beyond. *)
Definition short_sleep (e : effect) : Prop :=
  match e with Slept d => d <= 9000000000 | _ => True end.



(** ** The set-up of the sockets

    [run_server] and [client_udp] create and bind their socket before the
    [try] statement that closes it; [setup_res] is what the set-up calls
    ([setsockopt], [bind], [listen]) raise, if anything, with the socket
    already created. *)


(** Lines 296-299 and then the rest of [client_udp]. *)
Definition client_udp_with_setup (setup_res : option exn) (sk : sock)
    (a : args) (env : client_env) (w : world) : outcome world :=
  match setup_res with
  | Some e => Raised e w
  | None => client_udp sk a env w
  end.

(** ** Sample inputs *)

(** The defaults of the command line: TCP, 10 Mbit/s, 10 s, 1400 bytes, port 5000. *)
Definition default_args : args :=
  mk_args tcp 10 10 "127.0.0.1" 1400 None 5000.

(** A fresh process: flag clear, one open socket with handle [0], nothing logged. *)
Definition fresh_world : world := mk_world false [0%nat] [].

(** A send tick: nobody stops, the clock reads [t], the send call ends as [r]. *)
Definition tick_at (t : Q) (r : option exn) : send_tick := mk_send_tick false t r.

(** A client is accepted on the second attempt, takes two packets and then
    resets the connection. *)
Definition reset_session : session_env :=
  mk_session_env
    [ mk_accept_tick false (Err SocketTimeout);
      mk_accept_tick false (Ok (1%nat, ("192.168.2.114"%string, 40000%Z))) ]
    100
    [ tick_at 100 None; tick_at (100 + (1 # 1000)) None;
      tick_at (100 + (3 # 1000)) (Some ConnectionResetError) ]
    false.

(** A datagram sender whose third send fails. *)
Definition udp_args : args :=
  mk_args udp 100 10 "127.0.0.1" 1400 (Some "192.168.2.114"%string) 5000.


(** A receiver that gets one packet and then nothing for 13 seconds, with the
    default duration of 10 seconds, then one more packet. *)
Definition quiet_ticks : list recv_tick :=
  [ recv_at 11 (Err SocketTimeout); recv_at 12 (Err SocketTimeout);
    recv_at 13 (Ok 1400%N) ].

(** A TCP client whose peer resets the connection in the third second. *)
Definition reset_client : client_env :=
  mk_client_env None 0 (1 # 1000) (1 # 1000) (2 # 1000)
    (Ok 1400%N) ("127.0.0.1"%string, 5000%Z)
    1000
    [ recv_at (1000 + (1 # 2)) (Ok 8192%N); recv_at (1001 + (1 # 10)) (Ok 8192%N);
      recv_at 1002 (Err SocketTimeout); recv_at (1002 + (1 # 2)) (Err ConnectionResetError) ]
    (1002 + (1 # 2)).

(** A client that never sees a first packet. *)
Definition silent_client : client_env :=
  mk_client_env None 0 (1 # 1000) (1 # 1000) 5
    (Err SocketTimeout) ("127.0.0.1"%string, 5000%Z)
    1000 [] 1005.

(** A client whose peer closes right after the first packet, before the wall
    clock has moved. *)
Definition instant_client : client_env :=
  mk_client_env None 0 (1 # 1000) (1 # 1000) (2 # 1000)
    (Ok 1400%N) ("127.0.0.1"%string, 5000%Z)
    1000 [ recv_at 1000 (Ok 0%N) ] 1000.

(** Datagrams of 1250 bytes every half second for 2.5 seconds. *)
Definition steady_ticks : list recv_tick :=
  [ recv_at (1 # 2) (Ok 1250%N); recv_at 1 (Ok 1250%N); recv_at (3 # 2) (Ok 1250%N);
    recv_at 2 (Ok 1250%N); recv_at (5 # 2) (Ok 1250%N) ].

(** A TCP client whose measurement of 10 seconds runs its time: the packet
    that ends it arrives 10 seconds after the start. *)
Definition timed_client : client_env :=
  mk_client_env None 0 (1 # 1000) (1 # 1000) (2 # 1000)
    (Ok 1400%N) ("127.0.0.1"%string, 5000%Z)
    1000
    ([ recv_at (1000 + (1 # 2)) (Ok 8192%N); recv_at (1001 + (1 # 10)) (Ok 8192%N);
       recv_at 1002 (Err SocketTimeout) ]
     ++ recv_at 1010 (Ok 8192%N) :: [])
    (1010 + (1 # 100)).



(* ================================================================= *)
(** * Properties *)

(** ** Arithmetic of the interval *)

Lemma py_truediv_ok (a b : Q) : ~ b == 0 -> py_truediv a b = Ok (a / b).
Proof.
  intros Hb. unfold py_truediv.
  destruct (Qeq_bool b 0) eqn:E; [|reflexivity].
  apply Qeq_bool_iff in E. contradiction.
Qed.

Lemma interval_of_positive (a : args) :
  0 < speed a ->
  interval_of a = Ok (inject_Z (packet a) / bytes_per_sec a).
Proof.
  intros Hs. unfold interval_of.
  assert (Hb : 0 < bytes_per_sec a) by (unfold bytes_per_sec; lra).
  destruct (Qlt_le_dec 0 (bytes_per_sec a)) as [_|Hle]; [|lra].
  apply py_truediv_ok. lra.
Qed.

Lemma interval_of_unthrottled (a : args) :
  speed a <= 0 -> interval_of a = Ok 0.
Proof.
  intros Hs. unfold interval_of.
  destruct (Qlt_le_dec 0 (bytes_per_sec a)) as [Hlt|_]; [|reflexivity].
  unfold bytes_per_sec in Hlt. lra.
Qed.

(** The division guard makes [interval_of] total. *)
Lemma interval_of_total (a : args) : exists i, interval_of a = Ok i.
Proof.
  destruct (Qlt_le_dec 0 (speed a)) as [H|H].
  - eexists. apply interval_of_positive, H.
  - eexists. apply interval_of_unthrottled, H.
Qed.

(** ** Counting on the log *)

Lemma sent_count_emit (e : effect) (w : world) :
  sent_count (emit e w) = (sent_count w + (if is_send e then 1 else 0))%Z.
Proof.
  unfold sent_count, emit; simpl. destruct (is_send e); simpl; lia.
Qed.

Lemma slept_count_emit (e : effect) (w : world) :
  slept_count (emit e w) = (slept_count w + (if is_sleep e then 1 else 0))%Z.
Proof.
  unfold slept_count, emit; simpl. destruct (is_sleep e); simpl; lia.
Qed.

(** ** The deadline of the send loop *)

Section Pacing.
Variables (snk : sink) (len : Z) (interval : Q).

(** The deadline moves by [interval] per packet sent, whatever the clock
    readings of the script are and however the loop ends. *)
Lemma send_loop_deadline (tks : list send_tick) :
  forall d w,
    let r := state_of (send_loop snk len interval tks d w) in
    fst r == d + inject_Z (sent_count (snd r) - sent_count w) * interval.
Proof.
  induction tks as [|tk tks IH]; intros d w; simpl.
  - rewrite Z.sub_diag. change (inject_Z 0) with 0. ring.
  - destruct (stop_event w || tick_stop tk) eqn:Es; simpl.
    + unfold sent_count; simpl. rewrite Z.sub_diag. change (inject_Z 0) with 0. ring.
    + set (w1 := mk_world false (open_socks w) (log w)).
      set (w2 := if Qlt_le_dec (tick_now tk) d
                 then sleep (max0 (d - tick_now tk)) w1 else w1).
      assert (Hw2 : sent_count w2 = sent_count w).
      { unfold w2. destruct (Qlt_le_dec (tick_now tk) d); [|reflexivity].
        unfold sleep. rewrite sent_count_emit. simpl. unfold w1, sent_count; simpl. lia. }
      destruct (tick_send tk) as [e|]; simpl.
      * rewrite Hw2, Z.sub_diag. change (inject_Z 0) with 0. ring.
      * specialize (IH (d + interval)
                       (emit match snk with
                             | SinkTcp conn => SentAll conn len
                             | SinkUdp s dest => SentTo s dest len
                             end w2)).
        simpl in IH. rewrite IH. rewrite sent_count_emit, Hw2.
        replace (is_send match snk with
                         | SinkTcp conn => SentAll conn len
                         | SinkUdp s dest => SentTo s dest len
                         end) with true by (destruct snk; reflexivity).
        match goal with
        | |- context [inject_Z (?x - (?y + 1))] =>
            replace (x - y)%Z with ((x - (y + 1)) + 1)%Z by lia;
            rewrite (inject_Z_plus (x - (y + 1)) 1)
        end.
        change (inject_Z 1) with 1. ring.
Qed.

(** While nobody stops the loop and the sends succeed, every tick is one
    packet, and the loop is still running at the end of the script. *)
Lemma send_loop_all_sent (tks : list send_tick) :
  forall d w,
    stop_event w = false ->
    Forall tick_sends tks ->
    exists d' w',
      send_loop snk len interval tks d w = Blocked (d', w') /\
      stop_event w' = false /\
      sent_count w' = (sent_count w + Z.of_nat (List.length tks))%Z.
Proof.
  induction tks as [|tk tks IH]; intros d w Hw Hall; simpl.
  - exists d, w. repeat split; trivial. lia.
  - inversion Hall as [|? ? [Hs Hn] Hrest]; subst.
    rewrite Hw, Hs, Hn. simpl.
    set (w2 := if Qlt_le_dec (tick_now tk) d then _ else _).
    assert (Hw2 : stop_event w2 = false /\ sent_count w2 = sent_count w).
    { unfold w2. destruct (Qlt_le_dec (tick_now tk) d); split; reflexivity. }
    destruct Hw2 as [Hstop Hcnt].
    edestruct (IH (d + interval)) as (d' & w' & Heq & Hst & Hc);
      [ | exact Hrest | ].
    2:{ exists d', w'. split; [exact Heq|]. split; [exact Hst|].
        rewrite Hc, sent_count_emit, Hcnt.
        replace (is_send match snk with
                         | SinkTcp conn => SentAll conn len
                         | SinkUdp s dest => SentTo s dest len
                         end) with true by (destruct snk; reflexivity).
        lia. }
    simpl. exact Hstop.
Qed.
End Pacing.

(** ** Sleeping *)

Lemma slept_count_print (m : msg) (w : world) : slept_count (print m w) = slept_count w.
Proof. reflexivity. Qed.

Lemma slept_count_close (s : sock) (w : world) : slept_count (close s w) = slept_count w.
Proof. reflexivity. Qed.

Lemma send_loop_no_sleep (snk : sink) (len : Z) (interval : Q) (tks : list send_tick) :
  interval == 0 ->
  forall d w,
    Forall (fun tk => d <= tick_now tk) tks ->
    slept_count (snd (state_of (send_loop snk len interval tks d w))) = slept_count w.
Proof.
  intros Hi. induction tks as [|tk tks IH]; intros d w Hall; simpl.
  - reflexivity.
  - inversion Hall as [|? ? Hnow Hrest]; subst.
    destruct (stop_event w || tick_stop tk); simpl; [reflexivity|].
    destruct (Qlt_le_dec (tick_now tk) d) as [Hlt|_]; [lra|].
    destruct (tick_send tk) as [e|]; simpl; [reflexivity|].
    rewrite IH.
    + rewrite slept_count_emit. destruct snk; simpl; unfold slept_count; simpl; lia.
    + eapply Forall_impl; [|exact Hrest]. simpl. intros tk' H. lra.
Qed.

Lemma accept_loop_slept (ls : sock) (accs : list accept_tick) :
  forall w, slept_count (snd (state_of (accept_loop ls accs w))) = slept_count w.
Proof.
  induction accs as [|ac accs IH]; intros w; simpl; [reflexivity|].
  destruct (stop_event w || acc_stop ac); simpl; [reflexivity|].
  unfold accept, is_open; simpl.
  destruct (existsb (Nat.eqb ls) (open_socks w)); simpl; [|reflexivity].
  destruct (acc_res ac) as [[conn addr]|e]; simpl; [reflexivity|].
  destruct e; simpl; try reflexivity. rewrite IH. reflexivity.
Qed.

(** ** The start banner is the only place where a session shows the rate *)

Lemma hush_emit (e : effect) (w : world) :
  not_banner e = true -> hush (emit e w) = emit e (hush w).
Proof. intros H. unfold hush, emit; simpl. rewrite H. reflexivity. Qed.

Lemma send_loop_hush (snk : sink) (len : Z) (interval : Q) (tks : list send_tick) :
  forall d w,
    match send_loop snk len interval tks d w,
          send_loop snk len interval tks d (hush w) with
    | Returned (d1, w1), Returned (d2, w2) => d1 = d2 /\ hush w1 = w2
    | Raised e1 (d1, w1), Raised e2 (d2, w2) => e1 = e2 /\ d1 = d2 /\ hush w1 = w2
    | Blocked (d1, w1), Blocked (d2, w2) => d1 = d2 /\ hush w1 = w2
    | _, _ => False
    end.
Proof.
  induction tks as [|tk tks IH]; intros d w; simpl.
  - split; reflexivity.
  - destruct (stop_event w || tick_stop tk); simpl.
    + split; reflexivity.
    + destruct (Qlt_le_dec (tick_now tk) d); destruct (tick_send tk) as [e|]; simpl.
      * repeat split; reflexivity.
      * match goal with |- context [send_loop _ _ _ _ _ (emit ?e ?w0)] =>
          specialize (IH (d + interval) (emit e w0)) end.
        rewrite !hush_emit in IH by (destruct snk; reflexivity). exact IH.
      * repeat split; reflexivity.
      * match goal with |- context [send_loop _ _ _ _ _ (emit ?e ?w0)] =>
          specialize (IH (d + interval) (emit e w0)) end.
        rewrite !hush_emit in IH by (destruct snk; reflexivity). exact IH.
Qed.

(** ** Claims on the sender *)

(** The float loop never takes a packet back. *)
Lemma send_loop64_sent_grows (sleep_max : Q) (snk : sink) (len : Z) (interval : binary64)
    (tks : list send_tick64) :
  forall d w,
    (sent_count w
     <= sent_count (snd (state_of (send_loop64 sleep_max snk len interval tks d w))))%Z.
Proof.
  induction tks as [|tk tks IH]; intros d w; simpl; [lia|].
  destruct (stop_event w || tick64_stop tk); simpl; [unfold sent_count; simpl; lia|].
  set (w1 := mk_world false (open_socks w) (log w)).
  assert (Hsl : forall w2,
             (if b64_ltb (tick64_now tk) d
              then sleep64 sleep_max (max0_64 (b64_sub d (tick64_now tk))) w1
              else Ok w1) = Ok w2 -> sent_count w2 = sent_count w).
  { intros w2. destruct (b64_ltb (tick64_now tk) d).
    - unfold sleep64.
      destruct (max0_64 (b64_sub d (tick64_now tk))); try discriminate;
        repeat match goal with
               | |- context [if ?c then _ else _] => destruct c; try discriminate
               end;
        intros H; inversion H; reflexivity.
    - intros H; inversion H; reflexivity. }
  destruct (if b64_ltb (tick64_now tk) d then _ else _) as [w2|e]; simpl.
  - specialize (Hsl w2 eq_refl).
    destruct (tick64_send tk) as [e|]; simpl; [lia|].
    etransitivity; [|apply IH]. rewrite sent_count_emit, Hsl.
    destruct (is_send _); lia.
  - unfold w1, sent_count; simpl. lia.
Qed.

(** In exact arithmetic the deadline of the loop is the initial deadline plus
    the number of packets sent times the interval. *)
Lemma exact_deadline (a : args) :
  0 < speed a ->
  exists interval,
    interval_of a = Ok interval /\
    interval == inject_Z (packet a) * 8 / (speed a * 1000000) /\
    forall snk tks d0 w,
      let r := state_of (send_loop snk (data_len a) interval tks d0 w) in
      fst r == d0 + inject_Z (sent_count (snd r) - sent_count w) * interval.
Proof.
  intros Hs. exists (inject_Z (packet a) / bytes_per_sec a).
  split; [apply interval_of_positive, Hs|].
  split; [unfold bytes_per_sec; field; lra|].
  intros snk tks d0 w. apply send_loop_deadline.
Qed.

Lemma b64_positive_not_zero (x : binary64) :
  b64_ltb b64_zero x = true -> forall y, py_truediv64 y x = Ok (b64_div y x).
Proof. destruct x; intros H y; try reflexivity. discriminate. Qed.

(** The deadline of the float loop is the initial one with the interval added
    once per packet sent, whatever the clock reads, whether or not the loop
    sleeps, and however it ends. *)
Lemma send_loop64_deadline (sleep_max : Q) (snk : sink) (len : Z) (interval : binary64)
    (tks : list send_tick64) :
  forall d w,
    let r := state_of (send_loop64 sleep_max snk len interval tks d w) in
    fst r = add_times (Z.to_nat (sent_count (snd r) - sent_count w)) interval d.
Proof.
  induction tks as [|tk tks IH]; intros d w; simpl.
  - rewrite Z.sub_diag. reflexivity.
  - destruct (stop_event w || tick64_stop tk); simpl.
    + unfold sent_count; simpl. rewrite Z.sub_diag. reflexivity.
    + set (w1 := mk_world false (open_socks w) (log w)).
      assert (Hsl : forall w2,
                 (if b64_ltb (tick64_now tk) d
                  then sleep64 sleep_max (max0_64 (b64_sub d (tick64_now tk))) w1
                  else Ok w1) = Ok w2 -> sent_count w2 = sent_count w).
      { intros w2. destruct (b64_ltb (tick64_now tk) d).
        - unfold sleep64.
          destruct (max0_64 (b64_sub d (tick64_now tk))); try discriminate;
            repeat match goal with
                   | |- context [if ?c then _ else _] => destruct c; try discriminate
                   end;
            intros H; inversion H; reflexivity.
        - intros H; inversion H; reflexivity. }
      destruct (if b64_ltb (tick64_now tk) d then _ else _) as [w2|e]; simpl.
      * specialize (Hsl w2 eq_refl).
        destruct (tick64_send tk) as [e|]; simpl.
        -- rewrite Hsl, Z.sub_diag. reflexivity.
        -- rewrite IH. rewrite sent_count_emit, Hsl.
           replace (is_send match snk with
                            | SinkTcp conn => SentAll conn len
                            | SinkUdp s dest => SentTo s dest len
                            end) with true by (destruct snk; reflexivity).
           match goal with
           | |- context [Z.to_nat (?x - (?y + 1))] =>
               assert (Hge : (0 <= x - (y + 1))%Z);
               [ | replace (Z.to_nat (x - y)) with (S (Z.to_nat (x - (y + 1))))
                     by lia; reflexivity ]
           end.
           match goal with
           | |- context [send_loop64 ?m ?k ?l ?i tks ?d' ?w'] =>
               pose proof (send_loop64_sent_grows m k l i tks d' w') as Hg;
               rewrite sent_count_emit, Hsl in Hg
           end.
           replace (is_send match snk with
                            | SinkTcp conn => SentAll conn len
                            | SinkUdp s dest => SentTo s dest len
                            end) with true in Hg by (destruct snk; reflexivity).
           lia.
      * unfold w1, sent_count; simpl. rewrite Z.sub_diag. reflexivity.
Qed.

(** A float loop that is still running at the end of its script has sent one
    packet per tick. *)
Lemma send_loop64_running (sleep_max : Q) (snk : sink) (len : Z) (interval : binary64)
    (tks : list send_tick64) :
  forall d w,
    ended (send_loop64 sleep_max snk len interval tks d w) = false ->
    sent_count (snd (state_of (send_loop64 sleep_max snk len interval tks d w)))
    = (sent_count w + Z.of_nat (List.length tks))%Z.
Proof.
  induction tks as [|tk tks IH]; intros d w; simpl; [intros _; lia|].
  destruct (stop_event w || tick64_stop tk); simpl; [discriminate|].
  set (w1 := mk_world false (open_socks w) (log w)).
  assert (Hsl : forall w2,
             (if b64_ltb (tick64_now tk) d
              then sleep64 sleep_max (max0_64 (b64_sub d (tick64_now tk))) w1
              else Ok w1) = Ok w2 -> sent_count w2 = sent_count w).
  { intros w2. destruct (b64_ltb (tick64_now tk) d).
    - unfold sleep64.
      destruct (max0_64 (b64_sub d (tick64_now tk))); try discriminate;
        repeat match goal with
               | |- context [if ?c then _ else _] => destruct c; try discriminate
               end;
        intros H; inversion H; reflexivity.
    - intros H; inversion H; reflexivity. }
  destruct (if b64_ltb (tick64_now tk) d then _ else _) as [w2|e]; simpl;
    [|discriminate].
  specialize (Hsl w2 eq_refl).
  destruct (tick64_send tk) as [e|]; simpl; [discriminate|].
  intros He. rewrite (IH _ _ He), sent_count_emit, Hsl.
  replace (is_send match snk with
                   | SinkTcp conn => SentAll conn len
                   | SinkUdp s dest => SentTo s dest len
                   end) with true by (destruct snk; reflexivity).
  lia.
Qed.

(** C1, as the code has it.  When [bytes_per_sec] is positive and the packet
    size converts to a float, the interval is the binary64 quotient
    [packet_size / (speed * 125000)], and every send advances the deadline
    by one binary64 addition of that interval: after [N] sends the deadline is
    the initial one with the interval added [N] times, each sum rounded, for
    every script of clock readings, sleeps and failures; it is never
    recomputed from the current time.  A loop that is still running after [N]
    ticks has sent [N] packets. *)
Theorem deadline_adds_rounded_interval (speed64 : binary64) (packet_size : Z) :
  b64_ltb b64_zero (b64_mul speed64 (b64_of_Z 125000)) = true ->
  (0 < packet_size)%Z ->
  b64_finite (b64_of_Z packet_size) = true ->
  exists interval,
    interval64 speed64 packet_size = Ok interval /\
    interval = b64_div (b64_of_Z packet_size) (b64_mul speed64 (b64_of_Z 125000)) /\
    forall sleep_max snk tks d0 w,
      let o := send_loop64 sleep_max snk (Z.max 0 packet_size) interval tks d0 w in
      fst (state_of o)
      = add_times (Z.to_nat (sent_count (snd (state_of o)) - sent_count w)) interval d0 /\
      (ended o = false ->
       sent_count (snd (state_of o)) = (sent_count w + Z.of_nat (List.length tks))%Z /\
       fst (state_of o) = add_times (List.length tks) interval d0).
Proof.
  intros Hb Hp Hf.
  set (interval := b64_div (b64_of_Z packet_size) (b64_mul speed64 (b64_of_Z 125000))).
  exists interval. split; [|split; [reflexivity|]].
  - unfold interval64, py_float. rewrite Hb, Hf.
    apply b64_positive_not_zero, Hb.
  - intros sleep_max snk tks d0 w o.
    pose proof (send_loop64_deadline sleep_max snk (Z.max 0 packet_size) interval
                  tks d0 w) as Hd.
    cbv zeta in Hd. fold o in Hd. split; [exact Hd|].
    intros He.
    pose proof (send_loop64_running sleep_max snk (Z.max 0 packet_size) interval
                  tks d0 w He) as Hn.
    fold o in Hn. split; [exact Hn|]. rewrite Hd, Hn. f_equal. lia.
Qed.

Lemma deadline_adds_rounded_interval_witness :
  exists interval,
    interval64 (b64_of_Z 10) 1400 = Ok interval /\
    interval = b64_div (b64_of_Z 1400) (b64_mul (b64_of_Z 10) (b64_of_Z 125000)) /\
    forall sleep_max snk tks d0 w,
      let o := send_loop64 sleep_max snk (Z.max 0 1400) interval tks d0 w in
      fst (state_of o)
      = add_times (Z.to_nat (sent_count (snd (state_of o)) - sent_count w)) interval d0 /\
      (ended o = false ->
       sent_count (snd (state_of o)) = (sent_count w + Z.of_nat (List.length tks))%Z /\
       fst (state_of o) = add_times (List.length tks) interval d0).
Proof.
  apply (deadline_adds_rounded_interval (b64_of_Z 10) 1400); reflexivity.
Defined.

(** C1 as stated fails on floats.  With the default rate and packet size and
    an initial deadline of 100.0, the deadline after 31 sends (the clock is
    past the deadline throughout, so nothing sleeps) is not
    [deadline(0) + 31*interval], neither as Python computes that expression
    nor in exact arithmetic; and already the first deadline is not
    [interval] away from the initial one. *)
Lemma rounded_deadline_is_not_the_closed_form :
  let interval := b64_div (b64_of_Z 1400) (b64_mul (b64_of_Z 10) (b64_of_Z 125000)) in
  let d0 := b64_of_Z 100 in
  let tks := repeat (mk_send_tick64 false (b64_of_Z 200) None) 31 in
  interval64 (b64_of_Z 10) 1400 = Ok interval /\
  exists d w,
    send_loop64 9223372036 (SinkTcp 1%nat) 1400 interval tks d0 fresh_world
    = Blocked (d, w) /\
    sent_count w = 31%Z /\
    d <> b64_add d0 (b64_mul (b64_of_Z 31) interval) /\
    ~ Q_of_b64 d == 100 + 31 * Q_of_b64 interval /\
    ~ Q_of_b64 d == 100 + 31 * (1400 * 8 / (10 * 1000000)) /\
    b64_sub (b64_add d0 interval) d0 <> interval.
Proof.
  split; [reflexivity|].
  eexists. eexists. split; [vm_compute; reflexivity|].
  split; [reflexivity|].
  split; [vm_compute; discriminate|].
  split; [vm_compute; discriminate|].
  split; [vm_compute; discriminate|].
  vm_compute; discriminate.
Qed.

(** C8. With a rate of zero the interval is computed as 0 without any
    division, and on a clock that never reads less than the initial deadline
    (perf_counter is monotonic) no iteration of the send loop sleeps, in the
    loop itself and in both kinds of session. *)
Theorem zero_rate_never_sleeps (a : args) :
  speed a == 0 ->
  interval_of a = Ok 0 /\
  (forall snk tks d0 w,
      Forall (fun tk => d0 <= tick_now tk) tks ->
      slept_count (snd (state_of (send_loop snk (data_len a) 0 tks d0 w)))
      = slept_count w) /\
  (forall ls env w,
      Forall (fun tk => start_clock env <= tick_now tk) (ticks env) ->
      slept_count (state_of (server_tcp_session ls a env w)) = slept_count w) /\
  (forall s env w,
      Forall (fun tk => start_clock env <= tick_now tk) (ticks env) ->
      slept_count (state_of (server_udp_session s a env w)) = slept_count w).
Proof.
  intros Hs.
  assert (Hi : interval_of a = Ok 0) by (apply interval_of_unthrottled; lra).
  split; [exact Hi|]. split; [|split].
  - intros snk tks d0 w Hall. apply send_loop_no_sleep; [reflexivity|exact Hall].
  - intros ls env w Hall. unfold server_tcp_session. rewrite Hi.
    pose proof (accept_loop_slept ls (accepts env) (print (MsgWaitTcp (port a)) w)) as Ha.
    destruct (accept_loop ls (accepts env) (print (MsgWaitTcp (port a)) w))
      as [[[[conn addr]|] w1]|e [o w1]|[o w1]]; simpl in Ha |- *;
      try (rewrite Ha; reflexivity).
    pose proof (send_loop_no_sleep (SinkTcp conn) (data_len a) 0 (ticks env)
                  (Qeq_refl 0) (start_clock env) w1 Hall) as Hl.
    destruct (send_loop (SinkTcp conn) (data_len a) 0 (ticks env) (start_clock env) w1)
      as [[d w2]|e [d w2]|[d w2]]; simpl in Hl |- *.
    + rewrite slept_count_print, slept_count_close, Hl, Ha. reflexivity.
    + destruct (is_OSError e); simpl;
        rewrite ?slept_count_print, ?slept_count_close, ?slept_count_print, Hl, Ha;
        reflexivity.
    + rewrite Hl, Ha. reflexivity.
  - intros s env w Hall. unfold server_udp_session. rewrite Hi.
    pose proof (send_loop_no_sleep (SinkUdp s (dest_addr a)) (data_len a) 0 (ticks env)
                  (Qeq_refl 0) (start_clock env)
                  (print (MsgUdpStart (addr_desc a) (speed a)) w) Hall) as Hl.
    destruct (send_loop (SinkUdp s (dest_addr a)) (data_len a) 0 (ticks env)
                (start_clock env) (print (MsgUdpStart (addr_desc a) (speed a)) w))
      as [[d w1]|e [d w1]|[d w1]]; simpl in Hl |- *; try exact Hl.
    destruct (is_OSError e); simpl; [|exact Hl].
    destruct (stop_event w1 || stop_at_error env); simpl; exact Hl.
Qed.

Lemma zero_rate_never_sleeps_witness :
  speed (set_speed default_args 0) == 0 /\
  interval_of (set_speed default_args 0) = Ok 0 /\
  (forall snk tks d0 w,
      Forall (fun tk => d0 <= tick_now tk) tks ->
      slept_count (snd (state_of
        (send_loop snk (data_len (set_speed default_args 0)) 0 tks d0 w)))
      = slept_count w) /\
  (forall ls env w,
      Forall (fun tk => start_clock env <= tick_now tk) (ticks env) ->
      slept_count (state_of (server_tcp_session ls (set_speed default_args 0) env w))
      = slept_count w) /\
  (forall s env w,
      Forall (fun tk => start_clock env <= tick_now tk) (ticks env) ->
      slept_count (state_of (server_udp_session s (set_speed default_args 0) env w))
      = slept_count w).
Proof.
  split; [reflexivity|].
  apply (zero_rate_never_sleeps (set_speed default_args 0)). reflexivity.
Defined.

(** C10. A negative rate gives the interval 0 exactly as the rate 0 does
    (the guard is [bytes_per_sec > 0]), never an error; a TCP session then
    runs exactly as with rate 0, and a UDP session does so apart from the
    rate shown in its start banner. *)
Theorem negative_rate_is_unthrottled (a : args) :
  speed a < 0 ->
  interval_of a = Ok 0 /\
  interval_of a = interval_of (set_speed a 0) /\
  (forall ls env w,
      server_tcp_session ls a env w = server_tcp_session ls (set_speed a 0) env w) /\
  (forall s env w,
      hush_outcome (server_udp_session s a env w)
      = hush_outcome (server_udp_session s (set_speed a 0) env w)).
Proof.
  intros Hs.
  assert (Hi : interval_of a = Ok 0) by (apply interval_of_unthrottled; lra).
  assert (Hz : interval_of (set_speed a 0) = Ok 0)
    by (apply interval_of_unthrottled; simpl; lra).
  split; [exact Hi|]. split; [congruence|]. split.
  - intros ls env w. unfold server_tcp_session. rewrite Hi, Hz. reflexivity.
  - intros s env w. unfold server_udp_session. rewrite Hi, Hz.
    change (data_len (set_speed a 0)) with (data_len a).
    change (dest_addr (set_speed a 0)) with (dest_addr a).
    change (addr_desc (set_speed a 0)) with (addr_desc a).
    change (speed (set_speed a 0)) with 0.
    pose proof (send_loop_hush (SinkUdp s (dest_addr a)) (data_len a) 0 (ticks env)
                  (start_clock env) (print (MsgUdpStart (addr_desc a) (speed a)) w)) as H1.
    pose proof (send_loop_hush (SinkUdp s (dest_addr a)) (data_len a) 0 (ticks env)
                  (start_clock env) (print (MsgUdpStart (addr_desc a) 0) w)) as H2.
    change (hush (print (MsgUdpStart (addr_desc a) (speed a)) w)) with (hush w) in H1.
    change (hush (print (MsgUdpStart (addr_desc a) 0) w)) with (hush w) in H2.
    destruct (send_loop _ _ _ _ _ (print (MsgUdpStart (addr_desc a) (speed a)) w))
      as [[d1 w1]|e1 [d1 w1]|[d1 w1]];
    destruct (send_loop _ _ _ _ _ (print (MsgUdpStart (addr_desc a) 0) w))
      as [[d2 w2]|e2 [d2 w2]|[d2 w2]];
    destruct (send_loop _ _ _ _ _ (hush w)) as [[d3 w3]|e3 [d3 w3]|[d3 w3]];
    try contradiction; simpl.
    + destruct H1 as [_ H1], H2 as [_ H2]. congruence.
    + destruct H1 as (E1 & _ & H1), H2 as (E2 & _ & H2). subst e1 e2.
      destruct (is_OSError e3); simpl; [|congruence].
      assert (Hst : stop_event w1 = stop_event w2).
      { apply (f_equal stop_event) in H1, H2. simpl in H1, H2. congruence. }
      rewrite Hst.
      destruct (stop_event w2 || stop_at_error env); simpl; f_equal.
      * unfold hush in *; simpl in *. congruence.
      * unfold hush in *; simpl in *. congruence.
    + destruct H1 as [_ H1], H2 as [_ H2]. congruence.
Qed.

Lemma negative_rate_is_unthrottled_witness :
  speed (set_speed default_args (-5)) < 0 /\
  interval_of (set_speed default_args (-5)) = Ok 0 /\
  interval_of (set_speed default_args (-5))
  = interval_of (set_speed (set_speed default_args (-5)) 0) /\
  (forall ls env w,
      server_tcp_session ls (set_speed default_args (-5)) env w
      = server_tcp_session ls (set_speed (set_speed default_args (-5)) 0) env w) /\
  (forall s env w,
      hush_outcome (server_udp_session s (set_speed default_args (-5)) env w)
      = hush_outcome
          (server_udp_session s (set_speed (set_speed default_args (-5)) 0) env w)).
Proof.
  split; [reflexivity|].
  apply (negative_rate_is_unthrottled (set_speed default_args (-5))). reflexivity.
Defined.

(** ** Sockets and the stop flag across the loops *)

Lemma is_open_close_same (s : sock) (w : world) : is_open s (close s w) = false.
Proof.
  unfold is_open, close; simpl.
  induction (open_socks w) as [|x l IH]; simpl; [reflexivity|].
  destruct (Nat.eq_dec s x) as [E|N]; simpl; [exact IH|].
  rewrite IH. apply Nat.eqb_neq in N. rewrite N. reflexivity.
Qed.

Lemma is_open_close_other (s c : sock) (w : world) :
  c <> s -> is_open s (close c w) = is_open s w.
Proof.
  intros Hn. unfold is_open, close; simpl.
  induction (open_socks w) as [|x l IH]; simpl; [reflexivity|].
  destruct (Nat.eq_dec c x) as [E|N]; simpl.
  - subst x. rewrite IH.
    assert (Hf : Nat.eqb s c = false) by (apply Nat.eqb_neq; congruence).
    rewrite Hf. reflexivity.
  - rewrite IH. reflexivity.
Qed.




Lemma is_open_print (s : sock) (m : msg) (w : world) : is_open s (print m w) = is_open s w.
Proof. reflexivity. Qed.

Lemma server_loop_round (ls : sock) (a : args) (env : session_env)
    (rounds : list (bool * session_env)) (w w' : world) :
  stop_event w = false ->
  session ls a env w = Returned w' ->
  server_loop ls a ((false, env) :: rounds) w = server_loop ls a rounds w'.
Proof.
  intros Hw Hs. simpl. rewrite Hw. simpl.
  replace (mk_world false (open_socks w) (log w)) with w
    by (destruct w; simpl in *; subst; reflexivity).
  rewrite Hs. reflexivity.
Qed.

(** ** Claims on the sending controller *)









(** ** The periodic samples *)

Lemma report_before (start_time now : Q) (m : meter) (w : world) :
  now - last_report_time m < 1 -> report start_time now m w = Ok (m, w).
Proof.
  intros H. unfold report.
  destruct (Qlt_le_dec (now - last_report_time m) 1) as [_|Hge]; [reflexivity|lra].
Qed.

Lemma report_after (start_time now : Q) (m : meter) (w : world) :
  1 <= now - last_report_time m ->
  report start_time now m w
  = Ok (mk_meter (total_bytes m) now (total_bytes m),
        print (MsgSample (now - start_time)
                 (inject_Z ((total_bytes m - last_bytes m) * 8)
                  / (now - last_report_time m) / 1000000)
                 (megabytes (total_bytes m))) w).
Proof.
  intros H. unfold report.
  destruct (Qlt_le_dec (now - last_report_time m) 1) as [Hlt|_]; [lra|].
  rewrite py_truediv_ok by lra. reflexivity.
Qed.

(** [report] never raises: its divisor is at least one second. *)
Lemma report_total (start_time now : Q) (m : meter) (w : world) :
  exists m' w', report start_time now m w = Ok (m', w').
Proof.
  destruct (Qlt_le_dec (now - last_report_time m) 1) as [H|H].
  - do 2 eexists. apply report_before, H.
  - do 2 eexists. apply report_after, H.
Qed.

Lemma report_in_step (start_time now : Q) (m m' : meter) (w w' : world) :
  in_step start_time m w ->
  report start_time now m w = Ok (m', w') ->
  in_step start_time m' w'.
Proof.
  intros [Hsp Hlast] Hr.
  destruct (Qlt_le_dec (now - last_report_time m) 1) as [H|H].
  - rewrite report_before in Hr by exact H. inversion Hr; subst. split; assumption.
  - rewrite report_after in Hr by exact H. inversion Hr; subst. clear Hr.
    unfold in_step; simpl. split; [split; [lra|exact Hsp]|reflexivity].
Qed.

Lemma in_step_same (start_time : Q) (m m' : meter) (w w' : world) :
  last_report_time m' = last_report_time m ->
  sample_times (log w') = sample_times (log w) ->
  in_step start_time m w -> in_step start_time m' w'.
Proof. unfold in_step. intros -> ->. trivial. Qed.

Lemma measure_loop_in_step (p : proto) (a : args) (start_time : Q)
    (rtks : list recv_tick) :
  forall m w,
    in_step start_time m w ->
    let r := state_of (measure_loop p a start_time rtks m w) in
    in_step start_time (fst r) (snd r).
Proof.
  induction rtks as [|tk rtks IH]; intros m w Hin; simpl; [exact Hin|].
  destruct (stop_event w || rt_stop tk) eqn:Es; simpl.
  - eapply in_step_same; [| |exact Hin]; reflexivity.
  - destruct (rt_recv tk) as [n|e]; simpl.
    + destruct (match p with tcp => (n =? 0)%N | udp => false end); simpl.
      * eapply in_step_same; [| |exact Hin]; reflexivity.
      * set (m1 := mk_meter (total_bytes m + Z.of_N n) (last_report_time m) (last_bytes m)).
        set (w1 := mk_world false (open_socks w) (log w)).
        destruct (report_total start_time (rt_at tk) m1 w1) as (m2 & w2 & Hr).
        rewrite Hr.
        assert (Hin2 : in_step start_time m2 w2).
        { eapply report_in_step; [|exact Hr].
          eapply in_step_same; [| |exact Hin]; reflexivity. }
        destruct (Qlt_le_dec (rt_at tk - start_time) (time a)); simpl.
        -- apply IH, Hin2.
        -- exact Hin2.
    + destruct (is_timeout e); simpl.
      * apply IH. eapply in_step_same; [| |exact Hin]; reflexivity.
      * eapply in_step_same; [| |exact Hin]; reflexivity.
Qed.

(** [k] samples take at least [k] seconds. *)
Lemma spaced_count (ts : list Q) :
  spaced ts -> inject_Z (Z.of_nat (List.length ts)) <= hd 0 ts.
Proof.
  induction ts as [|t rest IH]; simpl; intros H.
  - apply Qle_refl.
  - destruct H as [Ht Hrest]. specialize (IH Hrest).
    rewrite Zpos_P_of_succ_nat. unfold Z.succ. rewrite inject_Z_plus.
    change (inject_Z 1) with 1. lra.
Qed.

(** ** Claims on the receiver *)

Lemma sample_times_printed (l : list effect) :
  sample_times l = map (fun x => fst (fst x)) (printed_samples l).
Proof.
  induction l as [|e l IH]; simpl; [reflexivity|].
  destruct e as [m| | | |]; try exact IH. destruct m; simpl; try exact IH.
  rewrite IH. reflexivity.
Qed.

(** One receive with data is one [onBytesReceived] of the sampler. *)
Lemma report_is_onBytesReceived (start_time now : Q) (m : meter) (n : Z) (w : world) :
  let m1 := mk_meter (total_bytes m + n) (last_report_time m) (last_bytes m) in
  let step := onBytesReceived start_time n now
                (mk_window (last_report_time m) (last_bytes m) (total_bytes m)) in
  report start_time now m1 w
  = Ok (mk_meter (totalBytes (fst step)) (windowStartTime (fst step))
                 (bytesAtWindowStart (fst step)),
        match snd step with
        | Some x => print (MsgSample (fst (fst (shown x))) (snd (fst (shown x)))
                             (snd (shown x))) w
        | None => w
        end).
Proof.
  intros m1 step. unfold step, onBytesReceived. cbn [windowStartTime bytesAtWindowStart totalBytes].
  destruct (Qlt_le_dec (now - last_report_time m) 1) as [H|H].
  - rewrite report_before by exact H. reflexivity.
  - rewrite report_after by exact H. reflexivity.
Qed.

Lemma measure_loop_sampler (p : proto) (a : args) (start_time : Q)
    (rtks : list recv_tick) :
  forall m w,
    stop_event w = false ->
    let r := state_of (measure_loop p a start_time rtks m w) in
    let sp := sampler start_time (heard p a start_time rtks)
                (mk_window (last_report_time m) (last_bytes m) (total_bytes m)) in
    printed_samples (log (snd r))
    = rev (map shown (snd sp)) ++ printed_samples (log w) /\
    fst r = mk_meter (totalBytes (fst sp)) (windowStartTime (fst sp))
                     (bytesAtWindowStart (fst sp)).
Proof.
  induction rtks as [|tk rtks IH]; intros m w Hw; simpl.
  - split; [reflexivity|destruct m; reflexivity].
  - rewrite Hw. simpl. destruct (rt_stop tk); simpl.
    { split; [reflexivity|destruct m; reflexivity]. }
    destruct (rt_recv tk) as [n|e]; simpl.
    + destruct (match p with tcp => (n =? 0)%N | udp => false end); simpl.
      { split; [reflexivity|destruct m; reflexivity]. }
      rewrite (report_is_onBytesReceived start_time (rt_at tk) m (Z.of_N n)).
      destruct (onBytesReceived start_time (Z.of_N n) (rt_at tk)
                  (mk_window (last_report_time m) (last_bytes m) (total_bytes m)))
        as [s1 emitted] eqn:Es. cbn [fst snd].
      destruct (Qlt_le_dec (rt_at tk - start_time) (time a)); simpl.
      * match goal with |- context [measure_loop p a start_time rtks ?m2 ?w2] =>
          destruct (IH m2 w2) as [H1 H2];
          [destruct emitted; reflexivity|] end.
        cbn [last_report_time last_bytes total_bytes] in H1, H2.
        replace (mk_window (windowStartTime s1) (bytesAtWindowStart s1) (totalBytes s1))
          with s1 in H1, H2 by (destruct s1; reflexivity).
        destruct (sampler start_time (heard p a start_time rtks) s1) as [s2 later].
        cbn [fst snd] in H1, H2 |- *. split; [|exact H2].
        rewrite H1. destruct emitted as [x|]; [|reflexivity].
        simpl. rewrite <- app_assoc. reflexivity.
      * split; [|reflexivity]. destruct emitted as [x|]; reflexivity.
    + destruct (is_timeout e); simpl.
      * apply (IH m (mk_world false (open_socks w) (log w))). reflexivity.
      * split; [reflexivity|destruct m; reflexivity].
Qed.

(** C7. Entered after a first packet of [n0] bytes at [start_time], with the
    stop flag clear and no sample printed yet, the measuring loop prints
    exactly the samples that the sampler of the specification emits for the
    receive events of the script: each sample shows the bytes received since
    the previous sample (or the start) times 8 over the seconds since then,
    in Mbit/s, and the counters of the loop are the window of the sampler,
    reset to the current time and total at every sample.  The samples are at
    least one second apart, counted from the previous sample and the first
    from the start, so [k] samples take at least [k] seconds. *)
Theorem samples_follow_the_sampler (p : proto) (a : args) (start_time : Q)
    (rtks : list recv_tick) (n0 : Z) (w : world) :
  stop_event w = false ->
  printed_samples (log w) = [] ->
  let r := state_of (measure_loop p a start_time rtks (mk_meter n0 start_time n0) w) in
  let sp := sampler start_time (heard p a start_time rtks)
              (mk_window start_time n0 n0) in
  printed_samples (log (snd r)) = rev (map shown (snd sp)) /\
  fst r = mk_meter (totalBytes (fst sp)) (windowStartTime (fst sp))
                   (bytesAtWindowStart (fst sp)) /\
  spaced (sample_times (log (snd r))) /\
  inject_Z (Z.of_nat (List.length (printed_samples (log (snd r)))))
  <= hd 0 (sample_times (log (snd r))).
Proof.
  intros Hw Hnone r sp.
  destruct (measure_loop_sampler p a start_time rtks (mk_meter n0 start_time n0) w Hw)
    as [H1 H2].
  cbn [last_report_time last_bytes total_bytes] in H1, H2.
  rewrite Hnone, app_nil_r in H1.
  split; [exact H1|]. split; [exact H2|].
  assert (Hin : in_step start_time (mk_meter n0 start_time n0) w).
  { unfold in_step. rewrite sample_times_printed, Hnone. simpl.
    split; [exact I|]. ring. }
  destruct (measure_loop_in_step p a start_time rtks _ w Hin) as [Hsp _].
  split; [exact Hsp|].
  replace (List.length (printed_samples (log (snd r))))
    with (List.length (sample_times (log (snd r))))
    by (rewrite sample_times_printed; apply length_map).
  apply spaced_count, Hsp.
Qed.

Lemma samples_follow_the_sampler_witness :
  let r := state_of (measure_loop udp default_args 0 steady_ticks
                       (mk_meter 1250 0 1250) fresh_world) in
  let sp := sampler 0 (heard udp default_args 0 steady_ticks) (mk_window 0 1250 1250) in
  printed_samples (log (snd r)) = rev (map shown (snd sp)) /\
  fst r = mk_meter (totalBytes (fst sp)) (windowStartTime (fst sp))
                   (bytesAtWindowStart (fst sp)) /\
  spaced (sample_times (log (snd r))) /\
  inject_Z (Z.of_nat (List.length (printed_samples (log (snd r)))))
  <= hd 0 (sample_times (log (snd r))).
Proof.
  apply (samples_follow_the_sampler udp default_args 0 steady_ticks 1250 fresh_world);
    reflexivity.
Defined.

(** ** The final average *)

Lemma finalize_positive (start_time final_clock : Q) (total : Z) (w : world) :
  0 < final_clock - start_time ->
  finalize start_time final_clock total w
  = Ok (print (MsgFinal (inject_Z (total * 8) / (final_clock - start_time) / 1000000)
                 (final_clock - start_time) (megabytes total)) w).
Proof.
  intros H. unfold finalize.
  destruct (Qlt_le_dec 0 (final_clock - start_time)) as [_|Hle]; [|lra].
  rewrite py_truediv_ok by lra. reflexivity.
Qed.

Lemma finalize_degenerate (start_time final_clock : Q) (total : Z) (w : world) :
  final_clock - start_time <= 0 ->
  finalize start_time final_clock total w = Ok w.
Proof.
  intros H. unfold finalize.
  destruct (Qlt_le_dec 0 (final_clock - start_time)) as [Hlt|_]; [lra|reflexivity].
Qed.

(** C2, as the code has it.  With a positive elapsed time the final line shows
    the average [(total_bytes*8)/final_time], scaled to Mbit/s; with an elapsed
    time of zero or less nothing is computed and nothing is printed.  In
    neither case is there a division by zero or any other exception. *)
Theorem final_average_or_nothing (start_time final_clock : Q) (total : Z) (w : world) :
  (0 < final_clock - start_time ->
   finalize start_time final_clock total w
   = Ok (print (MsgFinal (inject_Z (total * 8) / (final_clock - start_time) / 1000000)
                  (final_clock - start_time) (megabytes total)) w)) /\
  (final_clock - start_time <= 0 ->
   finalize start_time final_clock total w = Ok w) /\
  (exists w', finalize start_time final_clock total w = Ok w').
Proof.
  split; [apply finalize_positive|]. split; [apply finalize_degenerate|].
  destruct (Qlt_le_dec 0 (final_clock - start_time)) as [H|H].
  - eexists. apply finalize_positive, H.
  - eexists. apply finalize_degenerate, H.
Qed.

Lemma final_average_or_nothing_witness :
  0 < 1002 - 1000 /\ 1000 - 1000 <= 0 /\
  finalize 1000 1002 250000 fresh_world
  = Ok (print (MsgFinal (inject_Z (250000 * 8) / (1002 - 1000) / 1000000)
                 (1002 - 1000) (megabytes 250000)) fresh_world) /\
  finalize 1000 1000 250000 fresh_world = Ok fresh_world.
Proof.
  split; [reflexivity|]. split; [discriminate|]. split.
  - apply (final_average_or_nothing 1000 1002 250000 fresh_world). reflexivity.
  - apply (final_average_or_nothing 1000 1000 250000 fresh_world). discriminate.
Defined.

(** C2 as stated fails: with no time elapsed there is no final line at all,
    so no average of 0 is reported, neither by [finalize] nor by a whole run
    of [client_tcp]. *)
Lemma zero_elapsed_reports_nothing :
  1000 - 1000 <= 0 /\
  finalize 1000 1000 1400 fresh_world = Ok fresh_world /\
  ~ (exists avg ft mb w0,
        finalize 1000 1000 1400 fresh_world = Ok (print (MsgFinal avg ft mb) w0)) /\
  stats (state_of (client_tcp 0%nat default_args instant_client fresh_world)) = [].
Proof.
  split; [discriminate|]. split; [reflexivity|]. split; [|reflexivity].
  intros (avg & ft & mb & w0 & H). vm_compute in H. discriminate.
Qed.

(** ** No first packet *)

(** C6. When the first receive times out (for TCP: after a connect that
    succeeded), the client prints the no-traffic line, closes its socket and
    returns without entering the measuring loop: no sample and no final
    average is added to the log.  This holds for both protocols, whatever the
    rest of the script is. *)
Theorem no_first_packet_no_statistics
    (sk : sock) (a : args) (env : client_env) (w : world) :
  first_recv env = Err SocketTimeout ->
  (type a = tcp -> connect_res env = None) ->
  exists w0,
    run_client sk a env w = Returned (close sk (print (no_traffic_msg (type a)) w0)) /\
    is_open sk (close sk (print (no_traffic_msg (type a)) w0)) = false /\
    stats (close sk (print (no_traffic_msg (type a)) w0)) = stats w.
Proof.
  intros Hfirst Hconn. unfold run_client.
  destruct (type a) eqn:Et.
  - unfold client_tcp. rewrite (Hconn eq_refl), Hfirst. simpl.
    eexists. split; [reflexivity|]. split; [apply is_open_close_same|reflexivity].
  - unfold client_udp. rewrite Hfirst. simpl.
    eexists. split; [reflexivity|]. split; [apply is_open_close_same|reflexivity].
Qed.

Lemma no_first_packet_no_statistics_witness :
  (exists w0,
      run_client 0%nat default_args silent_client fresh_world
      = Returned (close 0%nat (print MsgFirstPacketTimeout w0)) /\
      is_open 0%nat (close 0%nat (print MsgFirstPacketTimeout w0)) = false /\
      stats (close 0%nat (print MsgFirstPacketTimeout w0)) = stats fresh_world) /\
  (exists w0,
      run_client 0%nat udp_args silent_client fresh_world
      = Returned (close 0%nat (print MsgNoTraffic w0)) /\
      is_open 0%nat (close 0%nat (print MsgNoTraffic w0)) = false /\
      stats (close 0%nat (print MsgNoTraffic w0)) = stats fresh_world).
Proof.
  split.
  - apply (no_first_packet_no_statistics 0%nat default_args silent_client fresh_world);
      reflexivity.
  - apply (no_first_packet_no_statistics 0%nat udp_args silent_client fresh_world);
      [reflexivity|discriminate].
Defined.

(** ** A failure while measuring *)

(** The measuring loop catches every timeout itself. *)
Lemma measure_loop_raises_no_timeout (p : proto) (a : args) (start_time : Q)
    (rtks : list recv_tick) :
  forall m w e m' w',
    measure_loop p a start_time rtks m w = Raised e (m', w') ->
    is_timeout e = false.
Proof.
  induction rtks as [|tk rtks IH]; intros m w e m' w' H; simpl in H; [discriminate|].
  destruct (stop_event w || rt_stop tk); simpl in H; [discriminate|].
  destruct (rt_recv tk) as [n|e0]; simpl in H.
  - destruct (match p with tcp => (n =? 0)%N | udp => false end); [discriminate|].
    match type of H with context [report ?s ?t ?m1 ?w1] =>
      destruct (report_total s t m1 w1) as (m2 & w2 & Hr); rewrite Hr in H end.
    destruct (Qlt_le_dec (rt_at tk - start_time) (time a)); [|discriminate].
    eapply IH, H.
  - destruct (is_timeout e0) eqn:Et.
    + eapply IH, H.
    + inversion H; subst. exact Et.
Qed.

(** When a receive in the measuring loop of [client_tcp] raises, the
    [finally] block still prints the final average if the elapsed time is
    positive and closes the socket, and then the exception leaves
    [client_tcp]. *)
Lemma receive_failure_cleans_up_then_propagates
    (sk : sock) (a : args) (env : client_env) (w w1 : world)
    (n : N) (m : meter) (e : exn) :
  connect_res env = None ->
  first_recv env = Ok n ->
  n <> 0%N ->
  measure_loop tcp a (clock_start env) (rticks env)
    (mk_meter (Z.of_N n) (clock_start env) (Z.of_N n))
    (print (MsgFirstPacketLatency ((pc_first env - pc_start_first env) * 1000))
       (print (MsgConnectLatency ((pc_connected env - pc_start_connect env) * 1000))
          (print (MsgConnected (host a) (port a)) w)))
  = Raised e (m, w1) ->
  let final_time := clock_final env - clock_start env in
  let wf := if Qlt_le_dec 0 final_time
            then print (MsgFinal (inject_Z (total_bytes m * 8) / final_time / 1000000)
                          final_time (megabytes (total_bytes m))) w1
            else w1 in
  is_timeout e = false /\
  client_tcp sk a env w = Raised e (close sk wf) /\
  is_open sk (close sk wf) = false.
Proof.
  intros Hc Hf Hn Hloop final_time wf.
  split; [eapply measure_loop_raises_no_timeout, Hloop|].
  split; [|apply is_open_close_same].
  unfold client_tcp. rewrite Hc, Hf.
  apply N.eqb_neq in Hn. rewrite Hn. rewrite Hloop. simpl.
  unfold wf, final_time.
  destruct (Qlt_le_dec 0 (clock_final env - clock_start env)) as [H|H].
  - rewrite finalize_positive by exact H. reflexivity.
  - rewrite finalize_degenerate by exact H. reflexivity.
Qed.

Lemma receive_failure_cleans_up_then_propagates_witness :
  let r := state_of
             (measure_loop tcp default_args (clock_start reset_client)
                (rticks reset_client) (mk_meter 1400 1000 1400)
                (print (MsgFirstPacketLatency (((2 # 1000) - (1 # 1000)) * 1000))
                   (print (MsgConnectLatency (((1 # 1000) - 0) * 1000))
                      (print (MsgConnected (host default_args) (port default_args))
                         fresh_world)))) in
  let final_time := clock_final reset_client - clock_start reset_client in
  let wf := if Qlt_le_dec 0 final_time
            then print (MsgFinal (inject_Z (total_bytes (fst r) * 8) / final_time / 1000000)
                          final_time (megabytes (total_bytes (fst r)))) (snd r)
            else snd r in
  is_timeout ConnectionResetError = false /\
  client_tcp 0%nat default_args reset_client fresh_world
  = Raised ConnectionResetError (close 0%nat wf) /\
  is_open 0%nat (close 0%nat wf) = false.
Proof.
  intros r.
  apply (receive_failure_cleans_up_then_propagates 0%nat default_args reset_client
           fresh_world (snd r) 1400%N (fst r) ConnectionResetError);
    try reflexivity.
  discriminate.
Defined.

(** C9 at the failing input.  The peer resets the connection in the third
    second of a TCP measurement: the [finally] block prints the final average
    and closes the socket, but the [ConnectionResetError] is caught nowhere
    in the client and leaves [client_tcp] and [run_client]; the call does not
    return. *)
Theorem connection_reset_leaves_client_tcp :
  (exists w' avg ft mb l,
      client_tcp 0%nat default_args reset_client fresh_world
      = Raised ConnectionResetError w' /\
      is_open 0%nat w' = false /\
      log w' = Closed 0%nat :: Printed (MsgFinal avg ft mb) :: l) /\
  (forall w', client_tcp 0%nat default_args reset_client fresh_world <> Returned w') /\
  run_client 0%nat default_args reset_client fresh_world
  = client_tcp 0%nat default_args reset_client fresh_world.
Proof.
  split; [|split; [|reflexivity]].
  - do 5 eexists. split; [vm_compute; reflexivity|]. split; reflexivity.
  - intros w' H. vm_compute in H. discriminate.
Qed.

(** ** The end of the measurement *)

(** While the receives time out the loop goes on, whatever the clock reads:
    the duration is looked at only after a receive that brought data. *)
Lemma measure_loop_idle (p : proto) (a : args) (start_time : Q)
    (rtks : list recv_tick) (m : meter) :
  forall w,
    stop_event w = false ->
    Forall tick_idle rtks ->
    measure_loop p a start_time rtks m w = Blocked (m, w).
Proof.
  induction rtks as [|tk rtks IH]; intros w Hw Hall; simpl; [reflexivity|].
  inversion Hall as [|? ? [Hs Hr] Hrest]; subst.
  rewrite Hw, Hs, Hr. simpl.
  replace (mk_world false (open_socks w) (log w)) with w
    by (destruct w; simpl in *; subst; reflexivity).
  apply IH; assumption.
Qed.

(** C3 at the failing input.  The duration is 10 s and the measurement starts
    at 0; the receives that come back at 11 s and 12 s time out, and the loop
    is still receiving (TCP and UDP alike); the packet that arrives at 13 s
    is received and counted, and only then does the loop end. *)
Theorem measuring_goes_on_past_the_duration :
  time default_args == 10 /\
  measure_loop tcp default_args 0
    [ recv_at 11 (Err SocketTimeout); recv_at 12 (Err SocketTimeout) ]
    (mk_meter 1400 0 1400) fresh_world
  = Blocked (mk_meter 1400 0 1400, fresh_world) /\
  measure_loop udp default_args 0
    [ recv_at 11 (Err SocketTimeout); recv_at 12 (Err SocketTimeout) ]
    (mk_meter 1400 0 1400) fresh_world
  = Blocked (mk_meter 1400 0 1400, fresh_world) /\
  (exists m w,
      measure_loop tcp default_args 0 quiet_ticks (mk_meter 1400 0 1400) fresh_world
      = Returned (m, w) /\ total_bytes m = 2800%Z).
Proof.
  split; [reflexivity|].
  split; [apply measure_loop_idle; [reflexivity|repeat constructor]|].
  split; [apply measure_loop_idle; [reflexivity|repeat constructor]|].
  do 2 eexists. split; [vm_compute; reflexivity|reflexivity].
Qed.

(* ================================================================= *)
(** * Further properties of the code *)

(** ** When the loops end *)

(** X1. With the flag clear at the start and no sleep of the run longer than
    [time.sleep] takes, the send loop is still running at the end of a script
    exactly when nobody asked to stop and every send of the script succeeded:
    a sender stops only on cancellation or on an exception of the send call,
    never by itself. *)
Theorem send_loop_runs_until_stopped_or_failed
    (snk : sink) (len : Z) (interval : Q) (tks : list send_tick) (d : Q) (w : world) :
  stop_event w = false ->
  Forall short_sleep (log (snd (state_of (send_loop snk len interval tks d w)))) ->
  ended (send_loop snk len interval tks d w) = false <-> Forall tick_sends tks.
Proof.
  intros Hw _. split.
  - revert d w Hw. induction tks as [|tk tks IH]; intros d w Hw H; [constructor|].
    simpl in H. rewrite Hw in H. simpl in H.
    destruct (tick_stop tk) eqn:Es; simpl in H; [discriminate|].
    destruct (tick_send tk) as [e|] eqn:En; simpl in H; [discriminate|].
    constructor; [split; assumption|].
    eapply IH; [|exact H].
    destruct (Qlt_le_dec (tick_now tk) d); reflexivity.
  - intros Hall.
    destruct (send_loop_all_sent snk len interval tks d w Hw Hall) as (d' & w' & Heq & _).
    rewrite Heq. reflexivity.
Qed.

Lemma send_loop_runs_until_stopped_or_failed_witness :
  stop_event fresh_world = false /\
  Forall short_sleep
    (log (snd (state_of (send_loop (SinkTcp 1%nat) 1400 (1400 / 1250000)
                           [tick_at 100 None; tick_at 100 None] 100 fresh_world)))) /\
  (ended (send_loop (SinkTcp 1%nat) 1400 (1400 / 1250000)
            [tick_at 100 None; tick_at 100 None] 100 fresh_world) = false
   <-> Forall tick_sends [tick_at 100 None; tick_at 100 None]).
Proof.
  assert (Hs : Forall short_sleep
                 (log (snd (state_of (send_loop (SinkTcp 1%nat) 1400 (1400 / 1250000)
                                        [tick_at 100 None; tick_at 100 None] 100
                                        fresh_world))))).
  { repeat constructor. simpl. discriminate. }
  split; [reflexivity|]. split; [exact Hs|].
  apply (send_loop_runs_until_stopped_or_failed (SinkTcp 1%nat) 1400 (1400 / 1250000)
           [tick_at 100 None; tick_at 100 None] 100 fresh_world);
    [reflexivity|exact Hs].
Defined.

(** X2. With the flag clear at the start, the measuring loop is still running
    at the end of a script exactly when no tick of it ends the loop: it ends
    at the first stop request, at the first exception that is not a timeout,
    at a zero-length read (TCP only), or at the first data that arrives
    [time] seconds or more after the start, and at nothing else. *)
Theorem measure_loop_ends_exactly_at (p : proto) (a : args) (start_time : Q)
    (rtks : list recv_tick) (m : meter) (w : world) :
  stop_event w = false ->
  ended (measure_loop p a start_time rtks m w) = false
  <-> Forall (fun tk => ends_loop p a start_time tk = false) rtks.
Proof.
  revert m w. induction rtks as [|tk rtks IH]; intros m w Hw.
  - simpl. split; [constructor|reflexivity].
  - simpl. rewrite Hw. simpl. rewrite Forall_cons_iff. unfold ends_loop at 1.
    destruct (rt_stop tk); simpl.
    { split; [discriminate|intros [H _]; discriminate]. }
    destruct (rt_recv tk) as [n|e]; simpl.
    + destruct (match p with tcp => (n =? 0)%N | udp => false end); simpl.
      { split; [discriminate|intros [H _]; discriminate]. }
      match goal with |- context [report ?s ?t ?m1 ?w1] =>
        destruct (report_total s t m1 w1) as (m2 & w2 & Hr);
        assert (Hw2 : stop_event w2 = false);
        [ destruct (Qlt_le_dec (t - last_report_time m1) 1) as [Hq|Hq];
          [ rewrite report_before in Hr by exact Hq
          | rewrite report_after in Hr by exact Hq ];
          inversion Hr; reflexivity
        | rewrite Hr ] end.
      destruct (Qlt_le_dec (rt_at tk - start_time) (time a)); simpl.
      * rewrite (IH m2 w2 Hw2). tauto.
      * split; [discriminate|intros [H _]; discriminate].
    + destruct (is_timeout e); simpl.
      * rewrite IH by reflexivity. tauto.
      * split; [discriminate|intros [H _]; discriminate].
Qed.

Lemma measure_loop_ends_exactly_at_witness :
  stop_event fresh_world = false /\
  (ended (measure_loop udp default_args 0 steady_ticks (mk_meter 1250 0 1250) fresh_world)
   = false
   <-> Forall (fun tk => ends_loop udp default_args 0 tk = false) steady_ticks).
Proof.
  split; [reflexivity|].
  apply (measure_loop_ends_exactly_at udp default_args 0 steady_ticks
           (mk_meter 1250 0 1250) fresh_world).
  reflexivity.
Defined.

(** ** What the receiver counts and prints *)

Lemma report_keeps_total (start_time now : Q) (m m' : meter) (w w' : world) :
  report start_time now m w = Ok (m', w') -> total_bytes m' = total_bytes m.
Proof.
  intros Hr. destruct (Qlt_le_dec (now - last_report_time m) 1) as [H|H].
  - rewrite report_before in Hr by exact H. inversion Hr; reflexivity.
  - rewrite report_after in Hr by exact H. inversion Hr; reflexivity.
Qed.

Lemma bytes_in_nonneg (rtks : list recv_tick) : (0 <= bytes_in rtks)%Z.
Proof.
  induction rtks as [|tk rtks IH]; simpl; [lia|].
  destruct (rt_recv tk); lia.
Qed.

(** X3. The total of the measuring loop never goes down and never exceeds the
    bytes the script brings; while the loop is still running at the end of
    the script, the total is the initial total plus every byte received:
    nothing is lost and nothing is counted twice. *)
Theorem measure_loop_counts_every_byte (p : proto) (a : args) (start_time : Q)
    (rtks : list recv_tick) (m : meter) (w : world) :
  let o := measure_loop p a start_time rtks m w in
  (total_bytes m <= total_bytes (fst (state_of o)) <= total_bytes m + bytes_in rtks)%Z /\
  (ended o = false ->
   total_bytes (fst (state_of o)) = (total_bytes m + bytes_in rtks)%Z).
Proof.
  revert m w. induction rtks as [|tk rtks IH]; intros m w; simpl.
  - split; [lia|intros _; lia].
  - pose proof (bytes_in_nonneg rtks) as Hb.
    destruct (stop_event w || rt_stop tk); simpl.
    { split; [destruct (rt_recv tk); lia|discriminate]. }
    destruct (rt_recv tk) as [n|e]; simpl.
    + destruct (match p with tcp => (n =? 0)%N | udp => false end); simpl.
      { split; [lia|discriminate]. }
      match goal with |- context [report ?s ?t ?m1 ?w1] =>
        destruct (report_total s t m1 w1) as (m2 & w2 & Hr); rewrite Hr;
        pose proof (report_keeps_total _ _ _ _ _ _ Hr) as Ht; simpl in Ht end.
      destruct (Qlt_le_dec (rt_at tk - start_time) (time a)); simpl.
      * destruct (IH m2 w2) as [H1 H2]. simpl in H1, H2. rewrite Ht in H1, H2.
        split; [lia|]. intros He. rewrite (H2 He). lia.
      * split; [lia|discriminate].
    + destruct (is_timeout e); simpl.
      * destruct (IH m (mk_world false (open_socks w) (log w))) as [H1 H2].
        simpl in H1, H2. split; [lia|]. intros He. rewrite (H2 He). lia.
      * split; [lia|discriminate].
Qed.

Lemma Qdiv_nonneg (x y : Q) : 0 <= x -> 0 < y -> 0 <= x / y.
Proof. intros Hx Hy. apply Qle_shift_div_l; [exact Hy|]. lra. Qed.

Lemma inject_Z_nonneg (z : Z) : (0 <= z)%Z -> 0 <= inject_Z z.
Proof. intros H. change 0 with (inject_Z 0). rewrite <- Zle_Qle. exact H. Qed.

Lemma report_stats_ok (start_time now : Q) (m m' : meter) (w w' : world) :
  meter_ok m -> Forall stat_ok (log w) ->
  report start_time now m w = Ok (m', w') ->
  meter_ok m' /\ Forall stat_ok (log w').
Proof.
  intros [H0 H1] Hl Hr. destruct (Qlt_le_dec (now - last_report_time m) 1) as [H|H].
  - rewrite report_before in Hr by exact H. inversion Hr; subst. repeat split; assumption.
  - rewrite report_after in Hr by exact H. inversion Hr; subst. clear Hr.
    split; [split; simpl; lia|]. simpl. constructor; [|exact Hl].
    simpl. apply Qdiv_nonneg; [|reflexivity].
    apply Qdiv_nonneg; [|lra]. apply inject_Z_nonneg. lia.
Qed.

Lemma measure_loop_stats_ok (p : proto) (a : args) (start_time : Q)
    (rtks : list recv_tick) :
  forall m w,
    meter_ok m -> Forall stat_ok (log w) ->
    let r := state_of (measure_loop p a start_time rtks m w) in
    meter_ok (fst r) /\ Forall stat_ok (log (snd r)).
Proof.
  induction rtks as [|tk rtks IH]; intros m w Hm Hl; simpl; [split; assumption|].
  destruct (stop_event w || rt_stop tk); simpl; [split; assumption|].
  destruct (rt_recv tk) as [n|e]; simpl.
  - destruct (match p with tcp => (n =? 0)%N | udp => false end); simpl.
    { split; [exact Hm|]. constructor; [exact I|exact Hl]. }
    set (m1 := mk_meter (total_bytes m + Z.of_N n) (last_report_time m) (last_bytes m)).
    set (w1 := mk_world false (open_socks w) (log w)).
    assert (Hm1 : meter_ok m1) by (destruct Hm; split; simpl; lia).
    destruct (report_total start_time (rt_at tk) m1 w1) as (m2 & w2 & Hr). rewrite Hr.
    destruct (report_stats_ok start_time (rt_at tk) m1 m2 w1 w2 Hm1 Hl Hr) as [Hm2 Hl2].
    destruct (Qlt_le_dec (rt_at tk - start_time) (time a)); simpl.
    + apply IH; assumption.
    + split; assumption.
  - destruct (is_timeout e); simpl; [apply IH; assumption|split; assumption].
Qed.

Lemma finalize_stats_ok (start_time final_clock : Q) (total : Z) (w w' : world) :
  (0 <= total)%Z -> Forall stat_ok (log w) ->
  finalize start_time final_clock total w = Ok w' ->
  Forall stat_ok (log w').
Proof.
  intros Ht Hl Hf. destruct (Qlt_le_dec 0 (final_clock - start_time)) as [H|H].
  - rewrite finalize_positive in Hf by exact H. inversion Hf; subst. simpl.
    constructor; [|exact Hl]. simpl. split; [|exact H].
    apply Qdiv_nonneg; [|reflexivity].
    apply Qdiv_nonneg; [|exact H]. apply inject_Z_nonneg. lia.
  - rewrite finalize_degenerate in Hf by exact H. inversion Hf; subst. exact Hl.
Qed.

Lemma client_finally_stats_ok (sk : sock) (env : client_env)
    (o : outcome (meter * world)) :
  meter_ok (fst (state_of o)) -> Forall stat_ok (log (snd (state_of o))) ->
  Forall stat_ok (log (state_of (client_finally sk env o))).
Proof.
  intros Hm Hl.
  assert (Hfin : forall m w, meter_ok m -> Forall stat_ok (log w) ->
            exists w', finalize (clock_start env) (clock_final env) (total_bytes m) w = Ok w'
                       /\ Forall stat_ok (log w')).
  { intros m w Hm' Hl'.
    destruct (Qlt_le_dec 0 (clock_final env - clock_start env)) as [H|H].
    - eexists. split; [apply finalize_positive, H|].
      eapply finalize_stats_ok; [| exact Hl' | apply finalize_positive, H].
      destruct Hm'; lia.
    - eexists. split; [apply finalize_degenerate, H|exact Hl']. }
  destruct o as [[m w]|e [m w]|[m w]]; simpl in *.
  - destruct (Hfin m w Hm Hl) as (w' & Hf & Hl'). rewrite Hf. simpl.
    constructor; [exact I|exact Hl'].
  - destruct (Hfin m w Hm Hl) as (w' & Hf & Hl'). rewrite Hf. simpl.
    constructor; [exact I|exact Hl'].
  - exact Hl.
Qed.

(** X4. Whatever a receiver run prints as throughput is sound: no periodic
    sample and no final average is negative, and a final average is printed
    only for a positive elapsed time; this holds for both protocols and every
    script, also when the run ends by an exception. *)
Theorem receiver_statistics_are_sound
    (sk : sock) (a : args) (env : client_env) (w : world) :
  Forall stat_ok (log w) ->
  Forall stat_ok (log (state_of (run_client sk a env w))).
Proof.
  intros Hl. unfold run_client.
  assert (Hm0 : forall n t, meter_ok (mk_meter (Z.of_N n) t (Z.of_N n)))
    by (intros n t; split; simpl; lia).
  destruct (type a).
  - unfold client_tcp. destruct (connect_res env); simpl; [exact Hl|].
    destruct (first_recv env) as [n|e]; simpl.
    + destruct (n =? 0)%N; simpl; [constructor; [exact I|]; repeat constructor; exact Hl|].
      apply client_finally_stats_ok; apply measure_loop_stats_ok; try apply Hm0;
        simpl; repeat (constructor; [exact I|]); exact Hl.
    + destruct (is_timeout e); simpl; repeat (constructor; [exact I|]); exact Hl.
  - unfold client_udp. destruct (first_recv env) as [n|e]; simpl.
    + apply client_finally_stats_ok; apply measure_loop_stats_ok; try apply Hm0;
        simpl; repeat (constructor; [exact I|]); exact Hl.
    + destruct (is_timeout e); simpl; repeat (constructor; [exact I|]); exact Hl.
Qed.

Lemma receiver_statistics_are_sound_witness :
  Forall stat_ok (log fresh_world) /\
  Forall stat_ok (log (state_of (run_client 0%nat default_args reset_client fresh_world))).
Proof.
  split; [constructor|].
  apply (receiver_statistics_are_sound 0%nat default_args reset_client fresh_world).
  constructor.
Defined.

(** ** What a sender run adds to the log *)






Section SenderLog.
Variables (s : sock) (conns : list sock) (a : args).






End SenderLog.


(** ** How a run of the server ends *)

Lemma accept_loop_raised (ls : sock) (accs : list accept_tick) :
  forall w e r,
    accept_loop ls accs w = Raised e r ->
    is_OSError e = false /\ is_interrupt e = false.
Proof.
  induction accs as [|ac accs IH]; intros w e r H; simpl in H; [discriminate|].
  destruct (stop_event w || acc_stop ac); simpl in H; [discriminate|].
  destruct (accept ls (acc_res ac) _) as [[[conn addr] w2]|e0]; [discriminate|].
  destruct (is_timeout e0) eqn:Et; [eapply IH, H|].
  destruct (is_OSError e0) eqn:Eo; [discriminate|].
  destruct (is_interrupt e0) eqn:Ei; [discriminate|].
  inversion H; subst. split; assumption.
Qed.

Lemma session_raised (ls : sock) (a : args) (env : session_env) (w w' : world) (e : exn) :
  session ls a env w = Raised e w' -> is_OSError e = false.
Proof.
  unfold session. destruct (interval_of_total a) as [interval Hi].
  destruct (type a).
  - unfold server_tcp_session. rewrite Hi.
    destruct (accept_loop ls (accepts env) _) as [[[[conn addr]|] w1]|e1 [o w1]|[o w1]] eqn:Ea;
      try discriminate.
    + destruct (send_loop _ _ _ _ _ _) as [[d w2]|e2 [d w2]|[d w2]]; try discriminate.
      destruct (is_OSError e2) eqn:Eo; [discriminate|].
      intros H. inversion H; subst. exact Eo.
    + intros H. inversion H; subst. eapply accept_loop_raised, Ea.
  - unfold server_udp_session. rewrite Hi.
    destruct (send_loop _ _ _ _ _ _) as [[d w1]|e1 [d w1]|[d w1]]; try discriminate.
    destruct (is_OSError e1) eqn:Eo.
    + destruct (is_set (stop_at_error env) w1). discriminate.
    + intros H. inversion H; subst. exact Eo.
Qed.

Lemma server_loop_end (ls : sock) (a : args) (rounds : list (bool * session_env)) :
  forall w,
    match server_loop ls a rounds w with
    | Returned w' => stop_event w' = true
    | Raised e _ => is_OSError e = false
    | Blocked _ => True
    end.
Proof.
  induction rounds as [|[ext env] rounds IH]; intros w; simpl; [exact I|].
  destruct (stop_event w || ext) eqn:Es; simpl; [reflexivity|].
  destruct (session ls a env _) as [w2|e w2|w2] eqn:Hs.
  - apply IH.
  - eapply session_raised, Hs.
  - exact I.
Qed.

(** X6. A run of the server returns only with the stop flag set, and no
    [OSError] (timeout, broken pipe, reset) and no [KeyboardInterrupt] ever
    leaves [run_server]: socket errors are dealt with inside the sessions and
    an interrupt is turned into a normal return. *)
Theorem run_server_ends_only_by_cancellation (ls : sock) (a : args)
    (rounds : list (bool * session_env)) (w : world) :
  match run_server ls a rounds w with
  | Returned w' => stop_event w' = true
  | Raised e _ => is_OSError e = false /\ is_interrupt e = false
  | Blocked _ => True
  end.
Proof.
  unfold run_server.
  match goal with |- context [server_loop ls a rounds ?w1] =>
    pose proof (server_loop_end ls a rounds w1) as H;
    destruct (server_loop ls a rounds w1) as [w2|e w2|w2] end.
  - exact H.
  - destruct (is_interrupt e) eqn:Ei; [reflexivity|]. split; [exact H|exact Ei].
  - exact I.
Qed.

(** ** Sockets of the server *)

Lemma is_open_close_sub (s c : sock) (w : world) :
  is_open s (close c w) = true -> is_open s w = true.
Proof.
  destruct (Nat.eq_dec c s) as [->|Hn].
  - rewrite is_open_close_same. discriminate.
  - rewrite is_open_close_other by exact Hn. trivial.
Qed.



Lemma is_open_socks (s : sock) (w w' : world) :
  open_socks w' = open_socks w -> is_open s w' = is_open s w.
Proof. unfold is_open. intros ->. reflexivity. Qed.






(** ** Ctrl+C on the server *)

Lemma world_eta (w : world) : mk_world (stop_event w) (open_socks w) (log w) = w.
Proof. destruct w; reflexivity. Qed.

Lemma accept_loop_timeouts (ls : sock) (k : nat) (rest : list accept_tick) (w : world) :
  stop_event w = false ->
  is_open ls w = true ->
  accept_loop ls (repeat (accept_as (Err SocketTimeout)) k ++ rest) w
  = accept_loop ls rest w.
Proof.
  intros Hw Ho.
  assert (Hw1 : mk_world false (open_socks w) (log w) = w)
    by (rewrite <- Hw; apply world_eta).
  induction k as [|k IH]; simpl; [reflexivity|].
  rewrite Hw. simpl. rewrite Hw1. unfold accept. rewrite Ho. simpl. exact IH.
Qed.

(** X8. Ctrl+C while the TCP server waits for a client: however many accept
    timeouts came before, the interrupt sets the stop flag inside
    [server_tcp_session], which returns without a connection; the next loop
    test of [run_server] sees the flag, and [run_server] closes the listening
    socket and returns normally, having accepted nobody and sent nothing. *)
Theorem interrupt_while_waiting (ls : sock) (a : args) (k : nat)
    (more : list accept_tick) (env : session_env)
    (r : bool * session_env) (rounds : list (bool * session_env)) (w : world) :
  type a = tcp ->
  stop_event w = false ->
  is_open ls w = true ->
  accepts env
  = repeat (accept_as (Err SocketTimeout)) k ++ accept_as (Err KeyboardInterrupt) :: more ->
  run_server ls a ((false, env) :: r :: rounds) w
  = Returned (mk_world true (remove Nat.eq_dec ls (open_socks w))
                (Printed MsgServerStopped :: Closed ls
                 :: Printed (MsgWaitTcp (port a)) :: Printed MsgServerStarted :: log w)).
Proof.
  intros Ht Hw Ho Hacc. unfold run_server. rewrite Ht.
  destruct r as [ext env2].
  cbn [server_loop is_set print emit stop_event open_socks log].
  rewrite Hw. cbn [orb]. unfold session. rewrite Ht. unfold server_tcp_session.
  rewrite Hacc. rewrite accept_loop_timeouts by (trivial; exact Ho).
  cbn [accept_loop accept_as acc_stop acc_res is_set print emit
       stop_event open_socks log orb].
  unfold accept.
  replace (is_open ls _) with true by (symmetry; exact Ho).
  cbn. reflexivity.
Qed.

Lemma interrupt_while_waiting_witness :
  run_server 0%nat default_args
    [ (false, mk_session_env
                (repeat (accept_as (Err SocketTimeout)) 3
                 ++ accept_as (Err KeyboardInterrupt) :: []) 0 [] false);
      (false, reset_session) ] fresh_world
  = Returned (mk_world true (remove Nat.eq_dec 0%nat (open_socks fresh_world))
                (Printed MsgServerStopped :: Closed 0%nat
                 :: Printed (MsgWaitTcp (port default_args))
                 :: Printed MsgServerStarted :: log fresh_world)).
Proof.
  apply (interrupt_while_waiting 0%nat default_args 3 []
           (mk_session_env
              (repeat (accept_as (Err SocketTimeout)) 3
               ++ accept_as (Err KeyboardInterrupt) :: []) 0 [] false)
           (false, reset_session) [] fresh_world); reflexivity.
Defined.

(** X9. Ctrl+C while the TCP server streams: the [finally] block of the
    session closes the connection (no "client disconnected" line is printed,
    the handler is for [OSError] only), the interrupt reaches [run_server],
    which sets the stop flag, closes the listening socket and returns
    normally. *)
Theorem interrupt_while_streaming
    (ls conn : sock) (addr : address) (a : args) (env : session_env)
    (rounds : list (bool * session_env)) (w w1 w2 : world) (interval d : Q) :
  type a = tcp ->
  stop_event w = false ->
  accept_loop ls (accepts env) (print (MsgWaitTcp (port a)) (print MsgServerStarted w))
  = Returned (Some (conn, addr), w1) ->
  interval_of a = Ok interval ->
  send_loop (SinkTcp conn) (data_len a) interval (ticks env) (start_clock env) w1
  = Raised KeyboardInterrupt (d, w2) ->
  let w' := print MsgServerStopped
              (close ls (set_stop (print MsgReady (close conn w2)))) in
  run_server ls a ((false, env) :: rounds) w = Returned w' /\
  stop_event w' = true /\
  is_open conn w' = false /\
  is_open ls w' = false.
Proof.
  intros Ht Hw Hacc Hi Hsend w'.
  split; [|split; [reflexivity|split]].
  - unfold run_server. rewrite Ht.
    cbn [server_loop is_set print emit stop_event open_socks log].
    rewrite Hw. cbn [orb]. unfold session. rewrite Ht. unfold server_tcp_session.
    change (print (MsgWaitTcp (port a))
              (mk_world false (open_socks w) (Printed MsgServerStarted :: log w)))
      with (print (MsgWaitTcp (port a))
              (print MsgServerStarted
                 (mk_world false (open_socks w) (log w)))).
    rewrite <- Hw, world_eta, Hacc, Hi, Hsend. reflexivity.
  - unfold w'. rewrite is_open_print.
    destruct (is_open conn (close ls (set_stop (print MsgReady (close conn w2))))) eqn:E;
      [|reflexivity].
    apply is_open_close_sub in E.
    change (is_open conn (close conn w2) = true) in E.
    rewrite is_open_close_same in E. discriminate.
  - unfold w'. rewrite is_open_print. apply is_open_close_same.
Qed.

Lemma interrupt_while_streaming_witness :
  let env := mk_session_env (accepts reset_session) 100
               [tick_at 100 None; tick_at 101 (Some KeyboardInterrupt)] false in
  let w1 := snd (state_of (accept_loop 0%nat (accepts env)
                   (print (MsgWaitTcp (port default_args))
                      (print MsgServerStarted fresh_world)))) in
  let w2 := snd (state_of (send_loop (SinkTcp 1%nat) (data_len default_args)
                   (1400 / 1250000) (ticks env) (start_clock env) w1)) in
  let w' := print MsgServerStopped
              (close 0%nat (set_stop (print MsgReady (close 1%nat w2)))) in
  run_server 0%nat default_args [(false, env)] fresh_world = Returned w' /\
  stop_event w' = true /\
  is_open 1%nat w' = false /\
  is_open 0%nat w' = false.
Proof.
  intros env w1 w2.
  apply (interrupt_while_streaming 0%nat 1%nat ("192.168.2.114"%string, 40000%Z)
           default_args env [] fresh_world w1 w2 (1400 / 1250000)
           (100 + 1400 / 1250000)); reflexivity.
Defined.

(** ** The socket of the receiver *)

Lemma finalize_total (start_time final_clock : Q) (total : Z) (w : world) :
  exists w', finalize start_time final_clock total w = Ok w'.
Proof.
  destruct (Qlt_le_dec 0 (final_clock - start_time)) as [H|H].
  - eexists. apply finalize_positive, H.
  - eexists. apply finalize_degenerate, H.
Qed.

Lemma client_finally_closes (sk : sock) (env : client_env) (o : outcome (meter * world)) :
  ended (client_finally sk env o) = true ->
  is_open sk (state_of (client_finally sk env o)) = false.
Proof.
  destruct o as [[m w]|e [m w]|[m w]]; simpl; try discriminate;
    destruct (finalize_total (clock_start env) (clock_final env) (total_bytes m) w)
      as [w' Hf]; rewrite Hf; simpl; intros _; apply is_open_close_same.
Qed.

Lemma client_udp_closes (sk : sock) (a : args) (env : client_env) (w : world) :
  ended (client_udp sk a env w) = true ->
  is_open sk (state_of (client_udp sk a env w)) = false.
Proof.
  unfold client_udp. destruct (first_recv env) as [n|e].
  - apply client_finally_closes.
  - destruct (is_timeout e); simpl; intros _; apply is_open_close_same.
Qed.

(** X10. Once its socket is set up and bound, however the rest of a run of
    the UDP receiver ends, by a return or by an exception (no traffic, a
    receive error, Ctrl+C, the duration reached), the socket has been closed;
    only when the set-up itself raises (lines 297-298, before the [try]) does
    [client_udp] leave with the socket still open. *)
Theorem client_udp_closes_once_bound (setup_res : option exn) (sk : sock)
    (a : args) (env : client_env) (w : world) :
  is_open sk w = true ->
  ended (client_udp_with_setup setup_res sk a env w) = true ->
  is_open sk (state_of (client_udp_with_setup setup_res sk a env w))
  = match setup_res with Some _ => true | None => false end.
Proof.
  intros Ho. unfold client_udp_with_setup. destruct setup_res as [e|].
  - intros _. exact Ho.
  - apply client_udp_closes.
Qed.

Lemma client_udp_closes_once_bound_witness :
  is_open 0%nat fresh_world = true /\
  ended (client_udp_with_setup None 0%nat udp_args silent_client fresh_world) = true /\
  is_open 0%nat
    (state_of (client_udp_with_setup None 0%nat udp_args silent_client fresh_world))
  = false.
Proof.
  split; [reflexivity|]. split; [reflexivity|].
  apply (client_udp_closes_once_bound None 0%nat udp_args silent_client fresh_world);
    reflexivity.
Defined.

(** X11. The TCP receiver closes its socket when the first receive times out
    and whenever the measuring loop was entered; in the three other ways out
    (connect raises, the server closes before any data, the first receive
    raises something else than a timeout) it leaves with the socket still
    open. *)
Theorem client_tcp_closes_unless_early_exit
    (sk : sock) (a : args) (env : client_env) (w : world) :
  is_open sk w = true ->
  ended (client_tcp sk a env w) = true ->
  is_open sk (state_of (client_tcp sk a env w))
  = match connect_res env with
    | Some _ => true
    | None =>
        match first_recv env with
        | Ok n => (n =? 0)%N
        | Err e => negb (is_timeout e)
        end
    end.
Proof.
  intros Ho. unfold client_tcp.
  destruct (connect_res env); simpl; [intros _; exact Ho|].
  destruct (first_recv env) as [n|e].
  - destruct (n =? 0)%N; simpl; [intros _; exact Ho|].
    apply client_finally_closes.
  - destruct (is_timeout e); simpl; intros _; [apply is_open_close_same|exact Ho].
Qed.

Lemma client_tcp_closes_unless_early_exit_witness :
  is_open 0%nat fresh_world = true /\
  ended (client_tcp 0%nat default_args reset_client fresh_world) = true /\
  is_open 0%nat (state_of (client_tcp 0%nat default_args reset_client fresh_world))
  = false.
Proof.
  split; [reflexivity|]. split; [reflexivity|].
  apply (client_tcp_closes_unless_early_exit 0%nat default_args reset_client fresh_world);
    reflexivity.
Defined.

(** ** The final line of a measurement that ran its time *)

Lemma measure_loop_app (p : proto) (a : args) (start_time : Q)
    (pre rest : list recv_tick) :
  forall m w,
    measure_loop p a start_time (pre ++ rest) m w
    = match measure_loop p a start_time pre m w with
      | Blocked (m', w') => measure_loop p a start_time rest m' w'
      | o => o
      end.
Proof.
  induction pre as [|tk pre IH]; intros m w; simpl; [reflexivity|].
  destruct (stop_event w || rt_stop tk); simpl; [reflexivity|].
  destruct (rt_recv tk) as [n|e]; simpl.
  - destruct (match p with tcp => (n =? 0)%N | udp => false end); [reflexivity|].
    destruct (report _ _ _ _) as [[m2 w2]|e]; [|reflexivity].
    destruct (Qlt_le_dec (rt_at tk - start_time) (time a)); [apply IH|reflexivity].
  - destruct (is_timeout e); [apply IH|reflexivity].
Qed.

Lemma report_keeps_flag (start_time now : Q) (m m' : meter) (w w' : world) :
  report start_time now m w = Ok (m', w') ->
  stop_event w' = stop_event w /\ open_socks w' = open_socks w.
Proof.
  intros Hr. destruct (Qlt_le_dec (now - last_report_time m) 1) as [H|H].
  - rewrite report_before in Hr by exact H. inversion Hr; split; reflexivity.
  - rewrite report_after in Hr by exact H. inversion Hr; split; reflexivity.
Qed.

Lemma measure_loop_running (p : proto) (a : args) (start_time : Q)
    (rtks : list recv_tick) :
  forall m w,
    stop_event w = false ->
    Forall (fun tk => ends_loop p a start_time tk = false) rtks ->
    exists m' w',
      measure_loop p a start_time rtks m w = Blocked (m', w') /\
      stop_event w' = false /\
      total_bytes m' = (total_bytes m + bytes_in rtks)%Z.
Proof.
  induction rtks as [|tk rtks IH]; intros m w Hw Hall; simpl.
  - exists m, w. repeat split; [exact Hw|lia].
  - inversion Hall as [|? ? Hend Hrest]; subst. unfold ends_loop in Hend.
    rewrite Hw. destruct (rt_stop tk); [discriminate|]. simpl in Hend |- *.
    destruct (rt_recv tk) as [n|e]; simpl.
    + apply orb_false_iff in Hend as [H0 Hd]. rewrite H0.
      match goal with |- context [report ?s ?t ?m1 ?w1] =>
        destruct (report_total s t m1 w1) as (m2 & w2 & Hr); rewrite Hr;
        pose proof (report_keeps_total _ _ _ _ _ _ Hr) as Ht;
        destruct (report_keeps_flag _ _ _ _ _ _ Hr) as [Hf _] end.
      simpl in Ht, Hf.
      destruct (Qlt_le_dec (rt_at tk - start_time) (time a)); [|discriminate].
      destruct (IH m2 w2 Hf Hrest) as (m' & w' & Heq & Hs & Htot).
      exists m', w'. repeat split; trivial. rewrite Htot, Ht. lia.
    + destruct (is_timeout e); [|discriminate]. simpl.
      destruct (IH m (mk_world false (open_socks w) (log w)) eq_refl Hrest)
        as (m' & w' & Heq & Hs & Htot).
      exists m', w'. repeat split; trivial.
Qed.

(** X12. A measurement that runs its time: while no tick ends the loop and
    then a packet of [k] bytes arrives [time] seconds or more after the start,
    the receiver stops with that packet counted, and, the elapsed time being
    positive, the last line before the socket is closed is the final average
    over the first packet and everything received since,
    [total*8 / final_time / 10^6] Mbit/s; the rest of the script is not
    touched.  For TCP the connect must have succeeded and both packets must be
    non-empty. *)
Theorem measurement_reports_all_bytes
    (sk : sock) (a : args) (env : client_env) (w : world)
    (n k : N) (t : Q) (pre rest : list recv_tick) :
  stop_event w = false ->
  first_recv env = Ok n ->
  (type a = tcp -> connect_res env = None /\ n <> 0%N /\ k <> 0%N) ->
  rticks env = pre ++ recv_at t (Ok k) :: rest ->
  Forall (fun tk => ends_loop (type a) a (clock_start env) tk = false) pre ->
  time a <= t - clock_start env ->
  0 < clock_final env - clock_start env ->
  let total := (Z.of_N n + bytes_in pre + Z.of_N k)%Z in
  let final_time := clock_final env - clock_start env in
  exists w' l,
    run_client sk a env w = Returned w' /\
    is_open sk w' = false /\
    log w' = Closed sk
             :: Printed (MsgFinal (inject_Z (total * 8) / final_time / 1000000)
                           final_time (megabytes total))
             :: l.
Proof.
  intros Hw Hfirst Htcp Hticks Hpre Hdur Hpos total final_time.
  assert (Hloop : forall w0, stop_event w0 = false ->
            exists m2 w2,
              measure_loop (type a) a (clock_start env) (rticks env)
                (mk_meter (Z.of_N n) (clock_start env) (Z.of_N n)) w0
              = Returned (m2, w2) /\ total_bytes m2 = total).
  { intros w0 Hw0. rewrite Hticks, measure_loop_app.
    destruct (measure_loop_running (type a) a (clock_start env) pre
                (mk_meter (Z.of_N n) (clock_start env) (Z.of_N n)) w0 Hw0 Hpre)
      as (m1 & w1 & Heq & Hs1 & Ht1).
    rewrite Heq. simpl. rewrite Hs1. simpl.
    assert (H0 : match type a with tcp => (k =? 0)%N | udp => false end = false).
    { destruct (type a); [|reflexivity]. apply N.eqb_neq. apply (Htcp eq_refl). }
    rewrite H0.
    match goal with |- context [report ?s ?t0 ?mm ?ww] =>
      destruct (report_total s t0 mm ww) as (m2 & w2 & Hr); rewrite Hr;
      pose proof (report_keeps_total _ _ _ _ _ _ Hr) as Ht end.
    simpl in Ht.
    destruct (Qlt_le_dec (t - clock_start env) (time a)) as [Hlt|_]; [lra|].
    exists m2, w2. split; [reflexivity|]. rewrite Ht, Ht1. reflexivity. }
  assert (Hfin : forall w0, stop_event w0 = false ->
            exists w' l,
              client_finally sk env
                (measure_loop (type a) a (clock_start env) (rticks env)
                   (mk_meter (Z.of_N n) (clock_start env) (Z.of_N n)) w0)
              = Returned w' /\ is_open sk w' = false /\
              log w' = Closed sk
                       :: Printed (MsgFinal (inject_Z (total * 8) / final_time / 1000000)
                                     final_time (megabytes total)) :: l).
  { intros w0 Hw0. destruct (Hloop w0 Hw0) as (m2 & w2 & Heq & Ht).
    rewrite Heq. simpl. rewrite finalize_positive by exact Hpos. rewrite Ht.
    do 2 eexists. split; [reflexivity|]. split; [apply is_open_close_same|reflexivity]. }
  unfold run_client. destruct (type a) eqn:Et.
  - destruct (Htcp eq_refl) as (Hc & Hn & _).
    unfold client_tcp. rewrite Hc, Hfirst. apply N.eqb_neq in Hn. rewrite Hn.
    apply Hfin. exact Hw.
  - unfold client_udp. rewrite Hfirst. apply Hfin. exact Hw.
Qed.

Lemma measurement_reports_all_bytes_witness :
  let pre := [ recv_at (1000 + (1 # 2)) (Ok 8192%N); recv_at (1001 + (1 # 10)) (Ok 8192%N);
               recv_at 1002 (Err SocketTimeout) ] in
  let total := (Z.of_N 1400 + bytes_in pre + Z.of_N 8192)%Z in
  let final_time := clock_final timed_client - clock_start timed_client in
  exists w' l,
    run_client 0%nat default_args timed_client fresh_world = Returned w' /\
    is_open 0%nat w' = false /\
    log w' = Closed 0%nat
             :: Printed (MsgFinal (inject_Z (total * 8) / final_time / 1000000)
                           final_time (megabytes total))
             :: l.
Proof.
  intros pre.
  apply (measurement_reports_all_bytes 0%nat default_args timed_client fresh_world
           1400%N 8192%N 1010 pre []); try reflexivity.
  - intros _. repeat split; discriminate.
  - repeat constructor.
  - discriminate.
Defined.

(** ** Edge cases of the sender *)

Lemma send_loop_never_sleeps (snk : sink) (len : Z) (interval : Q) (tks : list send_tick) :
  interval <= 0 ->
  forall d w,
    Forall (fun tk => d <= tick_now tk) tks ->
    slept_count (snd (state_of (send_loop snk len interval tks d w))) = slept_count w.
Proof.
  intros Hi. induction tks as [|tk tks IH]; intros d w Hall; simpl; [reflexivity|].
  inversion Hall as [|? ? Hnow Hrest]; subst.
  destruct (stop_event w || tick_stop tk); simpl; [reflexivity|].
  destruct (Qlt_le_dec (tick_now tk) d) as [Hlt|_]; [lra|].
  destruct (tick_send tk) as [e|]; simpl; [reflexivity|].
  rewrite IH.
  - rewrite slept_count_emit. destruct snk; simpl; unfold slept_count; simpl; lia.
  - eapply Forall_impl; [|exact Hrest]. simpl. intros tk' H. lra.
Qed.

(** X13. A packet size of zero or less, of a size that still converts to a
    float (down to [-2^1000]), is not refused: the payload is empty, the
    interval is zero or negative, and on a clock that never reads less than
    the initial deadline the send loop never sleeps, for any rate: the sender
    hands empty payloads to the socket as fast as it can. *)
Theorem nonpositive_packet_is_unthrottled (a : args) :
  (- 2 ^ 1000 <= packet a)%Z ->
  (packet a <= 0)%Z ->
  data_len a = 0%Z /\
  exists interval,
    interval_of a = Ok interval /\
    interval <= 0 /\
    forall snk tks d0 w,
      Forall (fun tk => d0 <= tick_now tk) tks ->
      slept_count (snd (state_of (send_loop snk (data_len a) interval tks d0 w)))
      = slept_count w.
Proof.
  intros _ Hp. split; [unfold data_len; lia|].
  assert (Hq : inject_Z (packet a) <= 0).
  { change 0 with (inject_Z 0). rewrite <- Zle_Qle. exact Hp. }
  destruct (Qlt_le_dec 0 (speed a)) as [Hs|Hs].
  - exists (inject_Z (packet a) / bytes_per_sec a).
    split; [apply interval_of_positive, Hs|].
    assert (Hi : inject_Z (packet a) / bytes_per_sec a <= 0).
    { apply Qle_shift_div_r; [unfold bytes_per_sec; lra|lra]. }
    split; [exact Hi|]. intros snk tks d0 w Hall.
    apply send_loop_never_sleeps; assumption.
  - exists 0. split; [apply interval_of_unthrottled, Hs|].
    split; [lra|]. intros snk tks d0 w Hall.
    apply send_loop_never_sleeps; [lra|exact Hall].
Qed.

Lemma nonpositive_packet_is_unthrottled_witness :
  let a := mk_args tcp 10 10 "127.0.0.1" 0 None 5000 in
  (- 2 ^ 1000 <= packet a)%Z /\
  (packet a <= 0)%Z /\
  data_len a = 0%Z /\
  exists interval,
    interval_of a = Ok interval /\
    interval <= 0 /\
    forall snk tks d0 w,
      Forall (fun tk => d0 <= tick_now tk) tks ->
      slept_count (snd (state_of (send_loop snk (data_len a) interval tks d0 w)))
      = slept_count w.
Proof.
  intros a. split; [discriminate|]. split; [discriminate|].
  apply (nonpositive_packet_is_unthrottled a); discriminate.
Defined.

(** X14. An error of [accept] that is not a timeout (however many timeouts
    came before it) ends the TCP session without a connection and without
    touching the stop flag or any socket: [run_server] goes on to its next
    round with only the waiting line added to the log. *)
Theorem accept_error_starts_next_round (ls : sock) (a : args) (k : nat) (e : exn)
    (more : list accept_tick) (env : session_env)
    (rounds : list (bool * session_env)) (w : world) :
  type a = tcp ->
  stop_event w = false ->
  is_open ls w = true ->
  is_OSError e = true ->
  is_timeout e = false ->
  accepts env = repeat (accept_as (Err SocketTimeout)) k ++ accept_as (Err e) :: more ->
  server_loop ls a ((false, env) :: rounds) w
  = server_loop ls a rounds (print (MsgWaitTcp (port a)) w).
Proof.
  intros Ht Hw Ho He Hto Hacc.
  apply server_loop_round; [exact Hw|].
  unfold session. rewrite Ht. unfold server_tcp_session.
  rewrite Hacc, accept_loop_timeouts by (trivial; exact Ho).
  cbn [accept_loop accept_as acc_stop acc_res is_set print emit
       stop_event open_socks log].
  rewrite Hw. cbn [orb]. unfold accept.
  replace (is_open ls _) with true by (symmetry; exact Ho).
  rewrite Hto, He. unfold print, emit. simpl. rewrite Hw. reflexivity.
Qed.

Lemma accept_error_starts_next_round_witness :
  let env := mk_session_env
               (repeat (accept_as (Err SocketTimeout)) 2
                ++ accept_as (Err OtherOSError) :: []) 0 [] false in
  server_loop 0%nat default_args [(false, env); (false, reset_session)] fresh_world
  = server_loop 0%nat default_args [(false, reset_session)]
      (print (MsgWaitTcp (port default_args)) fresh_world).
Proof.
  intros env.
  apply (accept_error_starts_next_round 0%nat default_args 2 OtherOSError [] env
           [(false, reset_session)] fresh_world); reflexivity.
Defined.
